(** * The filtering and aggregation pipeline of the EV dashboard (app.py)

    The script loads a table of electric-vehicle registrations, filters it
    by the side-bar selections and derives a handful of count tables from
    the filtered frame.  A data frame is modelled as the list of its rows,
    a column as the list of its cells, a missing cell (NaN) as [None].
    Numeric cells are integers. *)

From Stdlib Require Import List String Ascii ZArith Bool Arith Lia.
From Stdlib Require Import Permutation Sorted.
Import ListNotations.

Set Implicit Arguments.

(** ** Exceptions and results *)

Inductive Exception : Type :=
| ReadError    (* raised by pd.read_csv: the file cannot be opened or parsed *)
| ValueError   (* int(nan) *)
| TypeError.   (* '<' between str and float inside sorted() *)

Inductive Result (A : Type) : Type :=
| Ok (a : A)
| Raise (e : Exception).

Arguments Ok {A} a.
Arguments Raise {A} e.

Definition raises {A : Type} (r : Result A) : bool :=
  match r with Ok _ => false | Raise _ => true end.

(** ** The fragment of pandas and of the Python built-ins the script uses *)

Module Pandas.

Section Counting.
Variable K : Type.
Variable eqb : K -> K -> bool.

(** One step of the counting pass: the counter of [k] goes up by one, a
    key seen for the first time is appended with count one. *)
Fixpoint bump (k : K) (acc : list (K * nat)) : list (K * nat) :=
  match acc with
  | [] => [(k, 1)]
  | (k', c) :: rest =>
      if eqb k k' then (k', S c) :: rest else (k', c) :: bump k rest
  end.

(** The counting pass over a column without missing cells; keys come out
    in the order of their first occurrence. *)
Definition tally (ks : list K) : list (K * nat) :=
  fold_left (fun acc k => bump k acc) ks [].

(** Distinct values in the order of their first occurrence. *)
Fixpoint distinct (seen : list K) (ks : list K) : list K :=
  match ks with
  | [] => []
  | k :: rest =>
      if existsb (eqb k) seen then distinct seen rest
      else k :: distinct (k :: seen) rest
  end.
End Counting.

Section Sorting.
Variable A : Type.
Variable leb : A -> A -> bool.

(** Stable sort: an element goes in front of the first element it is
    not greater than, and elements are inserted from the right. *)
Fixpoint insert_by (x : A) (l : list A) : list A :=
  match l with
  | [] => [x]
  | y :: rest => if leb x y then x :: l else y :: insert_by x rest
  end.

Definition sort_by (l : list A) : list A := fold_right insert_by [] l.
End Sorting.

(** Series.dropna *)
Fixpoint dropna {A : Type} (col : list (option A)) : list A :=
  match col with
  | [] => []
  | Some a :: rest => a :: dropna rest
  | None :: rest => dropna rest
  end.

(** Series.notna, one cell *)
Definition notna {A : Type} (c : option A) : bool :=
  match c with Some _ => true | None => false end.

(** Series.isin(values), one cell; [values] holds strings only, so a
    missing cell never matches. *)
Definition isin (c : option string) (values : list string) : bool :=
  match c with
  | Some s => existsb (String.eqb s) values
  | None => false
  end.

(** [series == value], one cell; NaN equals nothing, itself included. *)
Definition eq_cell (c v : option string) : bool :=
  match c, v with
  | Some s, Some t => String.eqb s t
  | _, _ => false
  end.

(** Comparisons of a numeric cell with a number; False on NaN. *)
Definition ge_cell (c : option Z) (bound : Z) : bool :=
  match c with Some y => (bound <=? y)%Z | None => false end.

Definition le_cell (c : option Z) (bound : Z) : bool :=
  match c with Some y => (y <=? bound)%Z | None => false end.

(** A count series: (index label, count) pairs in display order. *)
Definition CountSeries (K : Type) : Type := list (K * nat).

Definition index {K : Type} (s : CountSeries K) : list K := map fst s.
Definition values {K : Type} (s : CountSeries K) : list nat := map snd s.

(** Descending order of counts. *)
Definition count_geb {K : Type} (a b : K * nat) : bool := snd b <=? snd a.

(** Series.value_counts(): missing cells are dropped, the distinct values
    are counted and the counts are sorted in descending order. *)
Definition value_counts (col : list (option string)) : CountSeries string :=
  sort_by count_geb (tally String.eqb (dropna col)).

(** Series.nlargest(n), keep='first'. *)
Definition nlargest {K : Type} (n : nat) (s : CountSeries K) : CountSeries K :=
  firstn n (sort_by count_geb s).

(** Series.unique() of an object column: NaN is one value among the
    others. *)
Definition cell_eqb (a b : option string) : bool :=
  match a, b with
  | Some s, Some t => String.eqb s t
  | None, None => true
  | _, _ => false
  end.

Definition unique (col : list (option string)) : list (option string) :=
  distinct cell_eqb [] col.

(** Python's sorted() on such a list.  Strings are compared with each
    other; comparing a string with NaN (a float) raises TypeError, which
    happens as soon as a NaN sits in a list of two or more elements. *)
Definition sorted (l : list (option string)) : Result (list (option string)) :=
  match l with
  | [] => Ok []
  | [x] => Ok [x]
  | _ =>
      if forallb notna l
      then Ok (map Some (sort_by String.leb (dropna l)))
      else Raise TypeError
  end.

(** Series.min() and Series.max(): NaN cells are skipped, the result is
    NaN when nothing is left. *)
Definition series_min (col : list (option Z)) : option Z :=
  match dropna col with
  | [] => None
  | y :: rest => Some (fold_left Z.min rest y)
  end.

Definition series_max (col : list (option Z)) : option Z :=
  match dropna col with
  | [] => None
  | y :: rest => Some (fold_left Z.max rest y)
  end.

(** Python's int() on a float. *)
Definition py_int (x : option Z) : Result Z :=
  match x with
  | Some y => Ok y
  | None => Raise ValueError
  end.

(** Group keys (Model Year, City). *)
Definition GroupKey : Type := (Z * string)%type.

Definition key_eqb (a b : GroupKey) : bool :=
  (fst a =? fst b)%Z && String.eqb (snd a) (snd b).

Definition key_leb (a b : GroupKey) : bool :=
  (fst a <? fst b)%Z || ((fst a =? fst b)%Z && String.leb (snd a) (snd b)).

(** Rows whose key has a missing part are left out of every group. *)
Fixpoint complete_keys (ks : list (option Z * option string)) : list GroupKey :=
  match ks with
  | [] => []
  | (Some y, Some c) :: rest => (y, c) :: complete_keys rest
  | _ :: rest => complete_keys rest
  end.

(** groupby([k1, k2]).size().reset_index(name="Count"): one output row per
    observed key, keys in ascending order. *)
Definition groupby_size (ks : list (option Z * option string))
  : list (GroupKey * nat) :=
  sort_by (fun a b => key_leb (fst a) (fst b))
          (tally key_eqb (complete_keys ks)).

End Pandas.

(** ** The script *)

Module App.
Import Pandas.

(** A row as pd.read_csv delivers it: the three numeric columns still hold
    the text of the cell, an empty cell is missing. *)
Record RawRow : Type := mkRawRow {
  raw_model_year : option string;
  raw_vehicle_type : option string;
  raw_city : option string;
  raw_make : option string;
  raw_base_msrp : option string;
  raw_electric_range : option string
}.

(** A row of the frame [df] after load_data. *)
Record Row : Type := mkRow {
  model_year : option Z;
  vehicle_type : option string;
  city : option string;
  make : option string;
  base_msrp : option Z;
  electric_range : option Z
}.

Definition DataFrame : Type := list Row.

(** What pd.read_csv finds at the path: nothing it can read, or a table
    with the named columns of the input contract. *)
Inductive Source : Type :=
| Unreadable
| Table (rows : list RawRow).

Definition read_csv (src : Source) : Result (list RawRow) :=
  match src with
  | Unreadable => Raise ReadError
  | Table rows => Ok rows
  end.

Section Loader.
(** The number a cell's text denotes, if it denotes one. *)
Variable parse_number : string -> option Z.

(** pd.to_numeric(..., errors="coerce"), one cell *)
Definition to_numeric (c : option string) : option Z :=
  match c with
  | Some s => parse_number s
  | None => None
  end.

Definition coerce (r : RawRow) : Row :=
  {| model_year := to_numeric (raw_model_year r);
     vehicle_type := raw_vehicle_type r;
     city := raw_city r;
     make := raw_make r;
     base_msrp := to_numeric (raw_base_msrp r);
     electric_range := to_numeric (raw_electric_range r) |}.

Definition load_data (src : Source) : Result DataFrame :=
  match read_csv src with
  | Raise e => Raise e
  | Ok rows =>
      let df := map coerce rows in
      let df := filter (fun r => notna (model_year r)) df in
      Ok df
  end.
End Loader.

(** The side-bar selections. *)
Record FilterState : Type := mkFilterState {
  tahun_range : Z * Z;
  selected_types : list string;
  selected_cities : list string;
  selected_makes : list string
}.

(** Truth value of a Python list. *)
Definition truthy {A : Type} (l : list A) : bool :=
  match l with [] => false | _ :: _ => true end.

Definition df_filtered (df : DataFrame) (fs : FilterState) : DataFrame :=
  let step0 :=
    filter (fun r =>
              ge_cell (model_year r) (fst (tahun_range fs))
              && le_cell (model_year r) (snd (tahun_range fs))
              && isin (vehicle_type r) (selected_types fs)) df in
  let step1 :=
    if truthy (selected_cities fs)
    then filter (fun r => isin (city r) (selected_cities fs)) step0
    else step0 in
  let step2 :=
    if truthy (selected_makes fs)
    then filter (fun r => isin (make r) (selected_makes fs)) step1
    else step1 in
  step2.

(** Visualisation 1: the ten most frequent cities. *)
Definition city_counts (view : DataFrame) : CountSeries string :=
  nlargest 10 (value_counts (map city view)).

(** Visualisation 2: registrations per year in the ten most frequent
    cities. *)
Definition top10_cities_main (view : DataFrame) : list string :=
  index (nlargest 10 (value_counts (map city view))).

Definition df_top10 (view : DataFrame) : DataFrame :=
  filter (fun r => isin (city r) (top10_cities_main view)) view.

Definition growth (view : DataFrame) : list (GroupKey * nat) :=
  groupby_size (map (fun r => (model_year r, city r)) (df_top10 view)).

(** Visualisation 3: vehicle types. *)
Definition type_counts (view : DataFrame) : CountSeries string :=
  value_counts (map vehicle_type view).

(** Visualisation 9: one box trace per vehicle type, over the rows that
    have a price. *)
Definition df_type_price (view : DataFrame) : DataFrame :=
  filter (fun r => notna (base_msrp r)) view.

Record BoxTrace : Type := mkBoxTrace {
  name : option string;
  y : list (option Z)
}.

Definition box_trace (priced : DataFrame) (tipe : option string) : BoxTrace :=
  {| name := tipe;
     y := map base_msrp
              (filter (fun r => eq_cell (vehicle_type r) tipe) priced) |}.

Definition fig_box_type (view : DataFrame) : Result (list BoxTrace) :=
  let priced := df_type_price view in
  match sorted (unique (map vehicle_type priced)) with
  | Raise e => Raise e
  | Ok tipes => Ok (map (box_trace priced) tipes)
  end.

(** Visualisation 4: the ten most frequent makes. *)
Definition makes_counts (view : DataFrame) : CountSeries string :=
  nlargest 10 (value_counts (map make view)).

(** The aggregations by the names of the contracts, with the field and
    the number of entries as arguments. *)
Definition topN (view : DataFrame) (field : Row -> option string) (n : nat)
  : CountSeries string :=
  nlargest n (value_counts (map field view)).

Definition distribution (view : DataFrame) (field : Row -> option string)
  : CountSeries string :=
  value_counts (map field view).

(** *** A run of the script, with what it puts on the page *)

Inductive Element : Type :=
| Title
| SidebarHeader
| YearSlider (lo hi : Z)
| TypeSelect (options : list string)
| CitySelect (options : list string)
| MakeSelect (options : list string)
| Subheader
| BarCities (data : CountSeries string)
| LineGrowth (data : list (GroupKey * nat))
| PieTypes (data : CountSeries string)
| BoxTypes (data : list BoxTrace)
| BarMakes (data : CountSeries string)
| Markdown.

Definition is_widget_or_chart (e : Element) : bool :=
  match e with
  | Title | SidebarHeader | Subheader | Markdown => false
  | _ => true
  end.

(** A computation that appends to the page and may raise. *)
Definition Script (A : Type) : Type := list Element -> list Element * Result A.

Definition ret {A : Type} (a : A) : Script A := fun page => (page, Ok a).

Definition bind {A B : Type} (m : Script A) (k : A -> Script B) : Script B :=
  fun page =>
    match m page with
    | (page', Ok a) => k a page'
    | (page', Raise e) => (page', Raise e)
    end.

Definition emit (e : Element) : Script unit := fun page => (page ++ [e], Ok tt).

Definition lift {A : Type} (r : Result A) : Script A := fun page => (page, r).

Notation "x <- m ;; k" := (bind m (fun x => k))
  (at level 61, m at next level, right associativity).
Notation "m ;;; k" := (bind m (fun _ => k))
  (at level 61, right associativity).

(** sorted(column.dropna().unique()), the options of a multiselect *)
Definition options_of (col : list (option string)) : list string :=
  sort_by String.leb (distinct String.eqb [] (dropna col)).

(** Lines 18 to 58: title, load, side-bar header, bounds of the year
    slider. *)
Definition startup (parse_number : string -> option Z) (src : Source)
  : Script DataFrame :=
  emit Title ;;;
  df <- lift (load_data parse_number src) ;;
  emit SidebarHeader ;;;
  min_year <- lift (py_int (series_min (map model_year df))) ;;
  max_year <- lift (py_int (series_max (map model_year df))) ;;
  emit (YearSlider min_year max_year) ;;;
  ret df.

(** px.bar(x=counts.values, y=counts.index, ...), lines 102 and 358.  When
    both sequences are empty plotly express takes each of them for a list
    of columns and raises ValueError; otherwise the figure is built. *)
Definition px_bar (figure : CountSeries string -> Element)
    (counts : CountSeries string) : Result Element :=
  match counts with
  | [] => Raise ValueError
  | _ :: _ => Ok (figure counts)
  end.

(** Lines 99 to 381: the five charts in the order of the script, then the
    two closing st.markdown calls. *)
Definition charts (view : DataFrame) : Script unit :=
  emit Subheader ;;;
  fig_bar_cities <- lift (px_bar BarCities (city_counts view)) ;;
  emit fig_bar_cities ;;;
  emit Subheader ;;;
  emit (LineGrowth (growth view)) ;;;
  emit Subheader ;;;
  emit (PieTypes (type_counts view)) ;;;
  emit Subheader ;;;
  traces <- lift (fig_box_type view) ;;
  emit (BoxTypes traces) ;;;
  emit Subheader ;;;
  fig_bar_makes <- lift (px_bar BarMakes (makes_counts view)) ;;
  emit fig_bar_makes ;;;
  emit Markdown ;;;
  emit Markdown.

(** The whole script; [fs] is what the widgets return. *)
Definition main (parse_number : string -> option Z) (src : Source)
    (fs : FilterState) : Script unit :=
  df <- startup parse_number src ;;
  emit (TypeSelect (options_of (map vehicle_type df))) ;;;
  emit (CitySelect (options_of (map city df))) ;;;
  emit (MakeSelect (options_of (map make df))) ;;;
  charts (df_filtered df fs).

(** What the widgets return before the user touches them: the slider its
    value=(min_year, max_year), the type multiselect its default=all_types,
    the city and make multiselects their default=[]. *)
Definition default_state (df : DataFrame) (min_year max_year : Z)
  : FilterState :=
  {| tahun_range := (min_year, max_year);
     selected_types := options_of (map vehicle_type df);
     selected_cities := [];
     selected_makes := [] |}.

End App.

(** ** Sample data: the scenario of the specification *)

Module Sample.
Import Pandas App.
Local Open Scope string_scope.
Local Open Scope Z_scope.

(** A reader of unsigned decimal numerals, for the examples. *)
Definition digit_of (c : ascii) : option Z :=
  let n := Z.of_nat (nat_of_ascii c) in
  if (48 <=? n) && (n <=? 57) then Some (n - 48) else None.

Fixpoint digits (acc : Z) (s : string) : option Z :=
  match s with
  | EmptyString => Some acc
  | String c rest =>
      match digit_of c with
      | Some d => digits (10 * acc + d) rest
      | None => None
      end
  end.

Definition parse_decimal (s : string) : option Z :=
  match s with
  | EmptyString => None
  | _ => digits 0 s
  end.

Definition raw (yr ty ci mk pr : string) : RawRow :=
  {| raw_model_year := Some yr;
     raw_vehicle_type := Some ty;
     raw_city := Some ci;
     raw_make := Some mk;
     raw_base_msrp := match pr with EmptyString => None | _ => Some pr end;
     raw_electric_range := None |}.

Definition file : Source :=
  Table [ raw "2020" "BEV" "Seattle" "Tesla" "40000";
          raw "2020" "PHEV" "Bellevue" "Toyota" EmptyString;
          raw "2021" "BEV" "Seattle" "Tesla" "42000" ].

(** A file with two unreadable cells: the year of the second row and the
    price of the third. *)
Definition file_with_bad_cells : Source :=
  Table [ raw "2020" "BEV" "Seattle" "Tesla" "40000";
          raw "n/a" "PHEV" "Bellevue" "Toyota" "30000";
          raw "2021" "BEV" "Seattle" "Tesla" "call us" ].

(** A file whose only row has no readable year. *)
Definition file_without_years : Source :=
  Table [ raw "n/a" "BEV" "Seattle" "Tesla" "40000" ].

Definition all_selected : FilterState :=
  {| tahun_range := (2020, 2021);
     selected_types := ["BEV"; "PHEV"];
     selected_cities := [];
     selected_makes := [] |}.

Definition dataset : DataFrame :=
  match load_data parse_decimal file with
  | Ok df => df
  | Raise _ => []
  end.

Definition view : DataFrame := df_filtered dataset all_selected.

End Sample.

(** ** Vocabulary of the statements *)

(** Number of elements of a list that pass a test. *)
Definition count {A : Type} (p : A -> bool) (l : list A) : nat :=
  List.length (filter p l).

(** Sum of a column of counts. *)
Definition total (l : list nat) : nat := fold_right Nat.add 0 l.

(** Each count is at least the next one. *)
Definition descending {K : Type} (s : Pandas.CountSeries K) : Prop :=
  Sorted (fun a b => snd b <= snd a) s.

(** The counter a count table holds for a key, zero when it has none. *)
Definition counter_of {K : Type} (eqb : K -> K -> bool) (k : K)
    (acc : list (K * nat)) : nat :=
  match find (fun e => eqb k (fst e)) acc with
  | Some e => snd e
  | None => 0
  end.

(** The cell holds the value [k]. *)
Definition holds (k : string) (c : option string) : bool :=
  Pandas.eq_cell c (Some k).

(** The predicate of the filter contract, in the words of the
    specification: the year lies in the inclusive range, the type is a
    selected one, and the city (the make) is a selected one whenever
    cities (makes) are selected at all. *)
Definition Satisfies (fs : App.FilterState) (r : App.Row) : Prop :=
  (exists yr, App.model_year r = Some yr
              /\ (fst (App.tahun_range fs) <= yr <= snd (App.tahun_range fs))%Z)
  /\ (exists t, App.vehicle_type r = Some t /\ In t (App.selected_types fs))
  /\ (App.selected_cities fs <> [] ->
      exists c, App.city r = Some c /\ In c (App.selected_cities fs))
  /\ (App.selected_makes fs <> [] ->
      exists m, App.make r = Some m /\ In m (App.selected_makes fs)).

(** The same predicate as a test. *)
Definition passes (fs : App.FilterState) (r : App.Row) : bool :=
  Pandas.ge_cell (App.model_year r) (fst (App.tahun_range fs))
  && Pandas.le_cell (App.model_year r) (snd (App.tahun_range fs))
  && Pandas.isin (App.vehicle_type r) (App.selected_types fs)
  && (negb (App.truthy (App.selected_cities fs))
      || Pandas.isin (App.city r) (App.selected_cities fs))
  && (negb (App.truthy (App.selected_makes fs))
      || Pandas.isin (App.make r) (App.selected_makes fs)).

(** The row was registered in year [yr] in city [c]. *)
Definition at_key (yr : Z) (c : string) (r : App.Row) : bool :=
  match App.model_year r, App.city r with
  | Some yr', Some c' => (yr' =? yr)%Z && String.eqb c' c
  | _, _ => false
  end.

(** The numeric-groups contract, in the words of the specification: the
    categories are the distinct types of the rows that have a price, and
    the values of a category are the prices of its rows in frame order. *)
Definition has_priced_row (view : App.DataFrame) (t : string) : Prop :=
  exists r, In r view /\ App.vehicle_type r = Some t /\ App.base_msrp r <> None.

Definition prices_of (view : App.DataFrame) (t : string) : list Z :=
  Pandas.dropna
    (map App.base_msrp (filter (fun r => holds t (App.vehicle_type r)) view)).

(** Strictly ascending order of strings: every element is below all the
    later ones. *)
Definition ascending (l : list string) : Prop :=
  StronglySorted (fun a b => String.ltb a b = true) l.

(** No row of the file has a year that reads as a number. *)
Definition no_valid_rows (parse_number : string -> option Z)
    (src : App.Source) : Prop :=
  match src with
  | App.Unreadable => False
  | App.Table rows =>
      Forall (fun raw =>
                App.to_numeric parse_number (App.raw_model_year raw) = None)
             rows
  end.

(** Every counter of a count table is positive. *)
Definition positive_counts {K : Type} (acc : list (K * nat)) : Prop :=
  Forall (fun e => 0 < snd e) acc.

(** Strict order of the group keys: by year, then by city. *)
Definition key_lt (a b : Pandas.GroupKey) : Prop :=
  (fst a < fst b)%Z \/ (fst a = fst b /\ String.ltb (snd a) (snd b) = true).

(** * Facts about the pandas fragment *)

Section SortingFacts.
Variable A : Type.
Variable leb : A -> A -> bool.

Lemma insert_by_perm (x : A) (l : list A) :
  Permutation (Pandas.insert_by leb x l) (x :: l).
Proof.
  induction l as [|y l IH]; simpl.
  - reflexivity.
  - destruct (leb x y).
    + reflexivity.
    + rewrite IH. apply perm_swap.
Qed.

Lemma sort_by_perm (l : list A) : Permutation (Pandas.sort_by leb l) l.
Proof.
  induction l as [|x l IH]; simpl.
  - reflexivity.
  - rewrite insert_by_perm. now apply perm_skip.
Qed.

Lemma sort_by_In (l : list A) (x : A) :
  In x (Pandas.sort_by leb l) <-> In x l.
Proof.
  split; apply Permutation_in;
    [apply sort_by_perm | symmetry; apply sort_by_perm].
Qed.

Lemma sort_by_length (l : list A) :
  List.length (Pandas.sort_by leb l) = List.length l.
Proof. apply Permutation_length, sort_by_perm. Qed.

Hypothesis leb_total : forall a b, leb a b = true \/ leb b a = true.

Lemma insert_by_hd (x y : A) (l : list A) :
  leb y x = true ->
  HdRel (fun a b => leb a b = true) y l ->
  HdRel (fun a b => leb a b = true) y (Pandas.insert_by leb x l).
Proof.
  intros Hyx Hyl. destruct l as [|z l]; simpl.
  - now constructor.
  - destruct (leb x z); constructor; trivial.
    now inversion Hyl.
Qed.

Lemma insert_by_sorted (x : A) (l : list A) :
  Sorted (fun a b => leb a b = true) l ->
  Sorted (fun a b => leb a b = true) (Pandas.insert_by leb x l).
Proof.
  induction 1 as [|y l Hs IH Hhd]; simpl.
  - repeat constructor.
  - destruct (leb x y) eqn:E.
    + constructor; [now constructor | now constructor].
    + constructor; [exact IH|].
      apply insert_by_hd; [|exact Hhd].
      destruct (leb_total x y) as [H|H]; [congruence | exact H].
Qed.

Lemma sort_by_sorted (l : list A) :
  Sorted (fun a b => leb a b = true) (Pandas.sort_by leb l).
Proof.
  induction l as [|x l IH]; simpl.
  - constructor.
  - now apply insert_by_sorted.
Qed.
End SortingFacts.

Lemma Sorted_firstn (A : Type) (R : A -> A -> Prop) (n : nat) (l : list A) :
  Sorted R l -> Sorted R (firstn n l).
Proof.
  revert l. induction n as [|n IH]; intros l Hs; simpl.
  - constructor.
  - destruct Hs as [|x l Hs Hhd]; [constructor|].
    constructor; [now apply IH|].
    destruct n; simpl; [constructor|].
    destruct Hhd; constructor; trivial.
Qed.

Lemma In_firstn (A : Type) (n : nat) (l : list A) (x : A) :
  In x (firstn n l) -> In x l.
Proof.
  revert l. induction n as [|n IH]; intros [|y l]; simpl; try tauto.
  intros [H|H]; [now left | right; now apply IH].
Qed.

Lemma NoDup_firstn (A : Type) (n : nat) (l : list A) :
  NoDup l -> NoDup (firstn n l).
Proof.
  revert l. induction n as [|n IH]; intros l Hnd; simpl.
  - constructor.
  - destruct Hnd as [|x l Hx Hnd]; constructor.
    + intros Hin. apply Hx. now apply In_firstn in Hin.
    + now apply IH.
Qed.

Lemma total_firstn (n : nat) (l : list nat) : total (firstn n l) <= total l.
Proof.
  revert l. induction n as [|n IH]; intros [|c l]; simpl; try lia.
  specialize (IH l). lia.
Qed.

Lemma total_perm (l l' : list nat) : Permutation l l' -> total l = total l'.
Proof. induction 1; simpl; lia. Qed.

Section CountingFacts.
Variable K : Type.
Variable eqb : K -> K -> bool.
Hypothesis eqb_spec : forall a b, reflect (a = b) (eqb a b).


Lemma counter_of_cons (k k' : K) (c : nat) (acc : list (K * nat)) :
  counter_of eqb k ((k', c) :: acc)
  = if eqb k k' then c else counter_of eqb k acc.
Proof. unfold counter_of; simpl. now destruct (eqb k k'). Qed.

Lemma counter_of_bump_same (k : K) (acc : list (K * nat)) :
  counter_of eqb k (Pandas.bump eqb k acc) = S (counter_of eqb k acc).
Proof.
  induction acc as [|[k' c] acc IH]; simpl.
  - rewrite counter_of_cons. now destruct (eqb_spec k k).
  - destruct (eqb k k') eqn:E; rewrite !counter_of_cons, E; auto.
Qed.

Lemma counter_of_bump_other (k k' : K) (acc : list (K * nat)) :
  k <> k' ->
  counter_of eqb k' (Pandas.bump eqb k acc) = counter_of eqb k' acc.
Proof.
  intros Hne. induction acc as [|[k0 c] acc IH]; simpl.
  - rewrite counter_of_cons. destruct (eqb_spec k' k); congruence.
  - destruct (eqb_spec k k0) as [->|Hk0]; rewrite !counter_of_cons.
    + destruct (eqb_spec k' k0); congruence.
    + now rewrite IH.
Qed.

Lemma keys_bump (k k' : K) (acc : list (K * nat)) :
  In k' (Pandas.index (Pandas.bump eqb k acc)) <-> k' = k \/ In k' (Pandas.index acc).
Proof.
  induction acc as [|[k0 c] acc IH]; simpl.
  - intuition.
  - destruct (eqb_spec k k0) as [->|Hk0]; simpl.
    + intuition.
    + rewrite IH. intuition.
Qed.

Lemma NoDup_bump (k : K) (acc : list (K * nat)) :
  NoDup (Pandas.index acc) -> NoDup (Pandas.index (Pandas.bump eqb k acc)).
Proof.
  induction acc as [|[k0 c] acc IH]; simpl; intros Hnd.
  - repeat constructor. intros [].
  - inversion Hnd as [|? ? Hnotin Hnd']; subst.
    destruct (eqb_spec k k0) as [->|Hk0]; simpl.
    + now constructor.
    + constructor; [|now apply IH].
      intros Hin. apply keys_bump in Hin. destruct Hin; [congruence|auto].
Qed.

Lemma positive_bump (k : K) (acc : list (K * nat)) :
  positive_counts acc -> positive_counts (Pandas.bump eqb k acc).
Proof.
  induction 1 as [|[k0 c] acc Hc Hacc IH]; simpl.
  - repeat constructor.
  - destruct (eqb k k0); constructor; simpl in *; auto; lia.
Qed.

Lemma total_bump (k : K) (acc : list (K * nat)) :
  total (map snd (Pandas.bump eqb k acc)) = S (total (map snd acc)).
Proof.
  induction acc as [|[k0 c] acc IH]; simpl; [reflexivity|].
  destruct (eqb k k0); simpl; lia.
Qed.

Lemma In_counter_of (k : K) (c : nat) (acc : list (K * nat)) :
  NoDup (Pandas.index acc) -> In (k, c) acc -> counter_of eqb k acc = c.
Proof.
  induction acc as [|[k0 c0] acc IH]; simpl; intros Hnd Hin.
  - contradiction.
  - inversion Hnd as [|? ? Hnotin Hnd']; subst.
    rewrite counter_of_cons. destruct Hin as [Heq|Hin].
    + inversion Heq; subst. now destruct (eqb_spec k k).
    + destruct (eqb_spec k k0) as [->|Hk0]; [|auto].
      exfalso. apply Hnotin. now apply (in_map fst) in Hin.
Qed.

Lemma counter_of_In (k : K) (acc : list (K * nat)) :
  0 < counter_of eqb k acc -> In (k, counter_of eqb k acc) acc.
Proof.
  induction acc as [|[k0 c0] acc IH]; simpl.
  - unfold counter_of; simpl; lia.
  - rewrite counter_of_cons. destruct (eqb_spec k k0) as [->|Hk0]; auto.
Qed.

(** The state of the counting pass after the keys [ks]. *)
Lemma fold_bump (ks : list K) (acc : list (K * nat)) :
  let out := fold_left (fun a k => Pandas.bump eqb k a) ks acc in
  (forall k, counter_of eqb k out = counter_of eqb k acc + count (eqb k) ks)
  /\ (NoDup (Pandas.index acc) -> NoDup (Pandas.index out))
  /\ (positive_counts acc -> positive_counts out)
  /\ total (map snd out) = total (map snd acc) + List.length ks.
Proof.
  revert acc. induction ks as [|k0 ks IH]; intros acc; simpl.
  - repeat split; auto; unfold count; simpl; lia.
  - destruct (IH (Pandas.bump eqb k0 acc)) as (Hc & Hnd & Hpos & Htot).
    repeat split.
    + intros k. rewrite Hc. unfold count; simpl.
      destruct (eqb_spec k k0) as [->|Hne]; simpl.
      * rewrite counter_of_bump_same. lia.
      * rewrite counter_of_bump_other by congruence. lia.
    + intros H. now apply Hnd, NoDup_bump.
    + intros H. now apply Hpos, positive_bump.
    + rewrite Htot, total_bump. lia.
Qed.

Lemma tally_NoDup (ks : list K) : NoDup (Pandas.index (Pandas.tally eqb ks)).
Proof. apply (fold_bump ks []). constructor. Qed.

Lemma tally_total (ks : list K) :
  total (map snd (Pandas.tally eqb ks)) = List.length ks.
Proof. apply (fold_bump ks []). Qed.

Lemma tally_In (ks : list K) (k : K) (c : nat) :
  In (k, c) (Pandas.tally eqb ks) <-> c = count (eqb k) ks /\ 0 < c.
Proof.
  destruct (fold_bump ks []) as (Hc & Hnd & Hpos & _).
  fold (Pandas.tally eqb ks) in *.
  specialize (Hc k). change (counter_of eqb k []) with 0 in Hc. simpl in Hc.
  split.
  - intros Hin. split.
    + rewrite <- Hc. symmetry. apply In_counter_of; [|exact Hin].
      apply Hnd. constructor.
    + assert (Hp : positive_counts (Pandas.tally eqb ks)) by (apply Hpos; constructor).
      unfold positive_counts in Hp. rewrite Forall_forall in Hp.
      apply (Hp _ Hin).
  - intros [-> Hpos']. rewrite <- Hc in *. now apply counter_of_In.
Qed.
End CountingFacts.

Section DistinctFacts.
Variable K : Type.
Variable eqb : K -> K -> bool.
Hypothesis eqb_spec : forall a b, reflect (a = b) (eqb a b).

Lemma existsb_eqb (k : K) (l : list K) :
  existsb (eqb k) l = true <-> In k l.
Proof.
  rewrite existsb_exists. split.
  - intros (x & Hin & Hx). now destruct (eqb_spec k x); subst.
  - intros Hin. exists k. split; [exact Hin|]. now destruct (eqb_spec k k).
Qed.

Lemma distinct_In (seen ks : list K) (x : K) :
  In x (Pandas.distinct eqb seen ks) <-> In x ks /\ ~ In x seen.
Proof.
  revert seen. induction ks as [|k ks IH]; intros seen; simpl.
  - tauto.
  - destruct (existsb (eqb k) seen) eqn:E.
    + apply existsb_eqb in E. rewrite IH. split.
      * tauto.
      * intros [[->|Hin] Hns]; tauto.
    + assert (Hk : ~ In k seen).
      { intros Hin. apply existsb_eqb in Hin. congruence. }
      simpl. rewrite IH. simpl. split.
      * intros [->|(Hin & Hns)]; [tauto|]. split; [tauto|]. tauto.
      * intros [[->|Hin] Hns]; [tauto|].
        destruct (eqb_spec k x) as [->|Hne]; [tauto|]. right. tauto.
Qed.

Lemma distinct_NoDup (seen ks : list K) : NoDup (Pandas.distinct eqb seen ks).
Proof.
  revert seen. induction ks as [|k ks IH]; intros seen; simpl.
  - constructor.
  - destruct (existsb (eqb k) seen); [apply IH|].
    constructor; [|apply IH].
    rewrite distinct_In. simpl. tauto.
Qed.
End DistinctFacts.

Lemma Sorted_weaken (A : Type) (R R' : A -> A -> Prop) (l : list A) :
  (forall a b, R a b -> R' a b) -> Sorted R l -> Sorted R' l.
Proof.
  intros Himp. induction 1 as [|x l Hs IH Hhd]; constructor; trivial.
  destruct Hhd; constructor; auto.
Qed.

Lemma count_map (A B : Type) (f : A -> B) (p : B -> bool) (l : list A) :
  count p (map f l) = count (fun a => p (f a)) l.
Proof.
  unfold count. induction l as [|a l IH]; simpl; [reflexivity|].
  destruct (p (f a)); simpl; congruence.
Qed.

Lemma count_le_length (A : Type) (p : A -> bool) (l : list A) :
  count p l <= List.length l.
Proof. apply filter_length_le. Qed.

Lemma count_pos (A : Type) (p : A -> bool) (l : list A) :
  0 < count p l <-> exists a, In a l /\ p a = true.
Proof.
  unfold count. split.
  - intros Hpos. destruct (filter p l) as [|a t] eqn:E; simpl in Hpos; [lia|].
    exists a. apply filter_In. rewrite E. now left.
  - intros (a & Hin & Hp).
    assert (H : In a (filter p l)) by (apply filter_In; tauto).
    destruct (filter p l); simpl; [contradiction | lia].
Qed.

Lemma count_ext (A : Type) (p q : A -> bool) (l : list A) :
  (forall a, In a l -> p a = q a) -> count p l = count q l.
Proof.
  intros H. unfold count. now rewrite (filter_ext_in _ _ _ H).
Qed.

Section DropnaFacts.
Variable A : Type.

Lemma dropna_In (col : list (option A)) (a : A) :
  In a (Pandas.dropna col) <-> In (Some a) col.
Proof.
  induction col as [|[b|] col IH]; simpl.
  - tauto.
  - rewrite IH. split; intros [H|H]; auto; left; congruence.
  - rewrite IH. split; [auto | intros [H|H]; [discriminate|auto]].
Qed.

Lemma dropna_length (col : list (option A)) :
  List.length (Pandas.dropna col) = count Pandas.notna col.
Proof.
  unfold count. induction col as [|[b|] col IH]; simpl; congruence.
Qed.

Lemma dropna_count (p : A -> bool) (col : list (option A)) :
  count p (Pandas.dropna col)
  = count (fun c => match c with Some a => p a | None => false end) col.
Proof.
  unfold count. induction col as [|[b|] col IH]; simpl; trivial.
  destruct (p b); simpl; congruence.
Qed.

Lemma dropna_all_present (col : list (option A)) :
  forallb Pandas.notna col = true -> map Some (Pandas.dropna col) = col.
Proof.
  induction col as [|[b|] col IH]; simpl; intros H; try discriminate; trivial.
  now rewrite IH.
Qed.
End DropnaFacts.

(** ** value_counts and nlargest *)

Lemma count_geb_total (K : Type) (a b : K * nat) :
  Pandas.count_geb a b = true \/ Pandas.count_geb b a = true.
Proof. unfold Pandas.count_geb. rewrite !Nat.leb_le. lia. Qed.

Lemma sort_counts_descending (K : Type) (s : Pandas.CountSeries K) :
  descending (Pandas.sort_by Pandas.count_geb s).
Proof.
  unfold descending.
  apply Sorted_weaken with (R := fun a b => Pandas.count_geb a b = true).
  - intros a b H. now apply Nat.leb_le.
  - apply sort_by_sorted. apply count_geb_total.
Qed.

Lemma value_counts_In (col : list (option string)) (k : string) (c : nat) :
  In (k, c) (Pandas.value_counts col) <-> c = count (holds k) col /\ 0 < c.
Proof.
  unfold Pandas.value_counts. rewrite sort_by_In.
  rewrite (@tally_In _ _ String.eqb_spec). rewrite dropna_count.
  assert (E : count (fun c0 => match c0 with
                               | Some a => String.eqb k a
                               | None => false end) col
              = count (holds k) col).
  { apply count_ext. intros [a|] _; simpl; trivial. apply String.eqb_sym. }
  now rewrite E.
Qed.

Lemma value_counts_NoDup (col : list (option string)) :
  NoDup (Pandas.index (Pandas.value_counts col)).
Proof.
  unfold Pandas.value_counts, Pandas.index.
  eapply Permutation_NoDup; [|apply (@tally_NoDup _ _ String.eqb_spec)].
  symmetry. apply Permutation_map, sort_by_perm.
Qed.

Lemma value_counts_total (col : list (option string)) :
  total (Pandas.values (Pandas.value_counts col)) = count Pandas.notna col.
Proof.
  unfold Pandas.value_counts, Pandas.values.
  rewrite (total_perm (Permutation_map snd (sort_by_perm _ _))).
  rewrite (@tally_total _ _ String.eqb_spec). apply dropna_length.
Qed.

Lemma value_counts_descending (col : list (option string)) :
  descending (Pandas.value_counts col).
Proof. apply sort_counts_descending. Qed.

Lemma nlargest_In (K : Type) (n : nat) (s : Pandas.CountSeries K) (e : K * nat) :
  In e (Pandas.nlargest n s) -> In e s.
Proof.
  unfold Pandas.nlargest. intros H. apply In_firstn in H.
  now apply sort_by_In in H.
Qed.

Lemma nlargest_length (K : Type) (n : nat) (s : Pandas.CountSeries K) :
  List.length (Pandas.nlargest n s) <= n.
Proof. unfold Pandas.nlargest. apply firstn_le_length. Qed.

Lemma nlargest_descending (K : Type) (n : nat) (s : Pandas.CountSeries K) :
  descending (Pandas.nlargest n s).
Proof. apply Sorted_firstn, sort_counts_descending. Qed.

Lemma nlargest_total (K : Type) (n : nat) (s : Pandas.CountSeries K) :
  total (Pandas.values (Pandas.nlargest n s)) <= total (Pandas.values s).
Proof.
  unfold Pandas.nlargest, Pandas.values.
  rewrite <- (total_perm (Permutation_map snd (sort_by_perm Pandas.count_geb s))).
  rewrite <- firstn_map. apply total_firstn.
Qed.

(** * The filter *)

Lemma filter_twice (A : Type) (f g : A -> bool) (l : list A) :
  filter g (filter f l) = filter (fun a => f a && g a) l.
Proof.
  induction l as [|a l IH]; simpl; [reflexivity|].
  destruct (f a); simpl; [destruct (g a)|]; congruence.
Qed.

Lemma isin_In (c : option string) (vals : list string) :
  Pandas.isin c vals = true <-> exists s, c = Some s /\ In s vals.
Proof.
  destruct c as [s|]; simpl.
  - rewrite (@existsb_eqb _ _ String.eqb_spec). split.
    + intros H. now exists s.
    + intros (s' & E & H). now inversion E; subst.
  - split; [discriminate | intros (s & E & _); discriminate].
Qed.

Lemma isin_nil (c : option string) : Pandas.isin c [] = false.
Proof. now destruct c. Qed.

Lemma optional_isin (sel : list string) (c : option string) :
  negb (App.truthy sel) || Pandas.isin c sel = true
  <-> (sel <> [] -> exists s, c = Some s /\ In s sel).
Proof.
  rewrite orb_true_iff, negb_true_iff, isin_In.
  destruct sel as [|s0 sel]; simpl.
  - split; [intros _ H; congruence | auto].
  - split.
    + intros [H|H] _; [discriminate | exact H].
    + intros H. right. apply H. discriminate.
Qed.

Lemma year_in_range (c : option Z) (lo hi : Z) :
  Pandas.ge_cell c lo && Pandas.le_cell c hi = true
  <-> exists yr, c = Some yr /\ (lo <= yr <= hi)%Z.
Proof.
  destruct c as [yr|]; simpl.
  - rewrite andb_true_iff, !Z.leb_le. split.
    + intros H. now exists yr.
    + intros (yr' & E & H). now inversion E; subst.
  - split; [discriminate | intros (yr & E & _); discriminate].
Qed.

Lemma passes_Satisfies (fs : App.FilterState) (r : App.Row) :
  passes fs r = true <-> Satisfies fs r.
Proof.
  unfold passes, Satisfies.
  do 3 rewrite andb_true_iff.
  rewrite year_in_range, isin_In, !optional_isin. tauto.
Qed.

Lemma df_filtered_filter (df : App.DataFrame) (fs : App.FilterState) :
  App.df_filtered df fs = filter (passes fs) df.
Proof.
  unfold App.df_filtered, passes.
  destruct (App.truthy (App.selected_cities fs));
    destruct (App.truthy (App.selected_makes fs));
    rewrite ?filter_twice; apply filter_ext; intros r; simpl;
    rewrite ?andb_true_r, ?andb_assoc; reflexivity.
Qed.

(** C1. The filtered frame is the order-preserving selection from the
    data set of exactly the rows that satisfy the conjunction of the
    contract: year within the inclusive range, type among the selected
    types, city among the selected cities if any city is selected, make
    among the selected makes if any make is selected.  A range whose two
    ends coincide keeps exactly the rows of that year, and an empty type
    selection leaves nothing. *)
Theorem C1_filter_exact (df : App.DataFrame) (fs : App.FilterState) :
  App.df_filtered df fs = filter (passes fs) df
  /\ (forall r, passes fs r = true <-> Satisfies fs r)
  /\ (forall r, In r (App.df_filtered df fs) <-> In r df /\ Satisfies fs r)
  /\ (forall yr, App.tahun_range fs = (yr, yr) ->
       forall r, Satisfies fs r ->  App.model_year r = Some yr)
  /\ (forall yr types,
        let one_year := App.mkFilterState (yr, yr) types [] [] in
        forall r, In r (App.df_filtered df one_year) <->
                  In r df /\ App.model_year r = Some yr
                  /\ Pandas.isin (App.vehicle_type r) types = true)
  /\ (App.selected_types fs = [] -> App.df_filtered df fs = []).
Proof.
  split; [apply df_filtered_filter|].
  split; [intros r; apply passes_Satisfies|].
  split.
  { intros r. rewrite df_filtered_filter, filter_In, passes_Satisfies. tauto. }
  split.
  { intros yr Hrange r ((yr' & Hyr & Hlo & Hhi) & _).
    rewrite Hrange in *; simpl in *. rewrite Hyr. f_equal. lia. }
  split.
  { intros yr types one_year r.
    rewrite df_filtered_filter, filter_In. unfold passes, one_year; simpl.
    rewrite !andb_true_r.
    rewrite andb_true_iff, year_in_range.
    split.
    - intros (Hin & (yr' & Hyr & Hrange) & Hty). repeat split; trivial.
      rewrite Hyr. f_equal. lia.
    - intros (Hin & Hyr & Hty). repeat split; trivial.
      exists yr. split; [exact Hyr | lia]. }
  intros Hnone. rewrite df_filtered_filter.
  induction df as [|r df IH]; simpl; [reflexivity|].
  unfold passes at 1. rewrite Hnone, isin_nil, andb_false_r. exact IH.
Qed.

(** * Rankings and distributions *)

Lemma present_le_rows (view : App.DataFrame) (field : App.Row -> option string) :
  count Pandas.notna (map field view) <= List.length view.
Proof.
  rewrite <- (length_map field view). apply count_le_length.
Qed.

Lemma descending_strong (K : Type) (s : Pandas.CountSeries K) :
  descending s -> StronglySorted (fun a b => snd b <= snd a) s.
Proof.
  apply Sorted_StronglySorted. intros a b c Hab Hbc. lia.
Qed.

Lemma firstn_above_rest (A : Type) (R : A -> A -> Prop) (n : nat) (l : list A) :
  StronglySorted R l ->
  forall a b, In a (firstn n l) -> In b (skipn n l) -> R a b.
Proof.
  revert l. induction n as [|n IH]; intros l Hs a b Ha Hb; simpl in *.
  - contradiction.
  - destruct Hs as [|x l Hs Hall]; simpl in *; [contradiction|].
    destruct Ha as [<-|Ha].
    + rewrite Forall_forall in Hall. apply Hall.
      rewrite <- (firstn_skipn n l). apply in_or_app. now right.
    + now apply (IH l).
Qed.

(** An entry left out by nlargest has a count no larger than any entry
    that was kept. *)
Lemma nlargest_keeps_largest (K : Type) (n : nat) (s : Pandas.CountSeries K)
    (kept left_out : K * nat) :
  In kept (Pandas.nlargest n s) -> In left_out s ->
  ~ In left_out (Pandas.nlargest n s) -> snd left_out <= snd kept.
Proof.
  unfold Pandas.nlargest. intros Hkept Hin Hout.
  apply (sort_by_In Pandas.count_geb) in Hin.
  rewrite <- (firstn_skipn n (Pandas.sort_by Pandas.count_geb s)) in Hin.
  apply in_app_or in Hin. destruct Hin as [Hin|Hin]; [contradiction|].
  apply (firstn_above_rest (R := fun a b : K * nat => snd b <= snd a) n
           (descending_strong (sort_counts_descending s)) _ _ Hkept Hin).
Qed.

Lemma topN_index_NoDup (view : App.DataFrame)
    (field : App.Row -> option string) (n : nat) :
  NoDup (Pandas.index (App.topN view field n)).
Proof.
  unfold App.topN, Pandas.nlargest, Pandas.index. rewrite <- firstn_map.
  apply NoDup_firstn.
  eapply Permutation_NoDup; [|apply (value_counts_NoDup (map field view))].
  symmetry. apply Permutation_map, sort_by_perm.
Qed.

(** C3. A ranking counts only the rows whose field is present: each entry
    carries the number of rows holding its value, which is positive, and
    no value is listed twice.  A value that is not listed occurs no more
    often than any listed one.  The ranking has at most [n] entries, each
    count is at least the next one, and the counts add up to no more than
    the number of rows.  The city and make rankings of the script are the
    rankings with n = 10. *)
Theorem C3_topN_ranking (view : App.DataFrame)
    (field : App.Row -> option string) (n : nat) :
  let out := App.topN view field n in
  (forall k c, In (k, c) out ->
               c = count (fun r => holds k (field r)) view /\ 0 < c)
  /\ (forall k c k', In (k, c) out -> ~ In k' (Pandas.index out) ->
                     count (fun r => holds k' (field r)) view <= c)
  /\ NoDup (Pandas.index out)
  /\ List.length out <= n
  /\ descending out
  /\ total (Pandas.values out) <= List.length view
  /\ App.city_counts view = App.topN view App.city 10
  /\ App.makes_counts view = App.topN view App.make 10.
Proof.
  unfold App.topN. cbv zeta.
  split; [|split; [|repeat split]].
  - intros k c H.
    apply nlargest_In, value_counts_In in H.
    rewrite count_map in H. exact H.
  - intros k c k' Hkept Hout.
    destruct (Nat.eq_dec (count (fun r => holds k' (field r)) view) 0)
      as [->|Hpos]; [lia|].
    assert (Hin : In (k', count (fun r => holds k' (field r)) view)
                     (Pandas.value_counts (map field view))).
    { apply value_counts_In. rewrite count_map. split; [reflexivity | lia]. }
    apply (nlargest_keeps_largest _ _ _ _ Hkept Hin).
    intros H. apply Hout. unfold Pandas.index.
    apply (in_map fst) in H. exact H.
  - apply topN_index_NoDup.
  - apply nlargest_length.
  - apply nlargest_descending.
  - etransitivity; [apply nlargest_total|].
    rewrite value_counts_total. apply present_le_rows.
Qed.

(** C6. A distribution is the plain value count of the field: one entry
    per value that occurs, carrying the number of rows that hold it, and
    the counts add up exactly to the number of rows whose field is
    present.  The type distribution of the script is this count of the
    vehicle type. *)
Theorem C6_distribution_sum (view : App.DataFrame)
    (field : App.Row -> option string) :
  let out := App.distribution view field in
  (forall k c, In (k, c) out <->
               c = count (fun r => holds k (field r)) view /\ 0 < c)
  /\ NoDup (Pandas.index out)
  /\ total (Pandas.values out) = count (fun r => Pandas.notna (field r)) view
  /\ App.type_counts view = App.distribution view App.vehicle_type.
Proof.
  unfold App.distribution. cbv zeta.
  split; [|repeat split].
  - intros k c. rewrite value_counts_In, count_map. reflexivity.
  - apply value_counts_NoDup.
  - rewrite value_counts_total. apply count_map.
Qed.

(** * Growth per year and city *)

Lemma key_eqb_spec (a b : Pandas.GroupKey) : reflect (a = b) (Pandas.key_eqb a b).
Proof.
  destruct a as [ya ca], b as [yb cb]. unfold Pandas.key_eqb; simpl.
  destruct (Z.eqb_spec ya yb) as [->|Hy]; simpl.
  - destruct (String.eqb_spec ca cb) as [->|Hc]; constructor; congruence.
  - constructor; congruence.
Qed.

Lemma complete_keys_count (k : Pandas.GroupKey)
    (ks : list (option Z * option string)) :
  count (Pandas.key_eqb k) (Pandas.complete_keys ks)
  = count (fun p => match p with
                    | (Some yr, Some c) => Pandas.key_eqb k (yr, c)
                    | _ => false
                    end) ks.
Proof.
  unfold count. induction ks as [|[[yr|] [c|]] ks IH]; simpl; trivial.
  destruct (Pandas.key_eqb k (yr, c)); simpl; congruence.
Qed.

Lemma groupby_size_In (ks : list (option Z * option string))
    (k : Pandas.GroupKey) (n : nat) :
  In (k, n) (Pandas.groupby_size ks)
  <-> n = count (Pandas.key_eqb k) (Pandas.complete_keys ks) /\ 0 < n.
Proof.
  unfold Pandas.groupby_size. rewrite sort_by_In.
  apply (@tally_In _ _ key_eqb_spec).
Qed.

Lemma groupby_size_NoDup (ks : list (option Z * option string)) :
  NoDup (map fst (Pandas.groupby_size ks)).
Proof.
  unfold Pandas.groupby_size.
  eapply Permutation_NoDup; [|apply (@tally_NoDup _ _ key_eqb_spec)].
  symmetry. apply Permutation_map, sort_by_perm.
Qed.

Lemma count_filter (A : Type) (p q : A -> bool) (l : list A) :
  count q (filter p l) = count (fun a => p a && q a) l.
Proof. unfold count. now rewrite filter_twice. Qed.

Lemma count_none (A : Type) (p : A -> bool) (l : list A) :
  (forall a, In a l -> p a = false) -> count p l = 0.
Proof.
  intros H. unfold count. induction l as [|a l IH]; simpl; [reflexivity|].
  rewrite (H a) by now left. apply IH. intros b Hb. apply H. now right.
Qed.

(** Rows counted under a key of the restricted frame. *)
Lemma growth_count (view : App.DataFrame) (yr : Z) (c : string) :
  count (Pandas.key_eqb (yr, c))
        (Pandas.complete_keys
           (map (fun r => (App.model_year r, App.city r)) (App.df_top10 view)))
  = if Pandas.isin (Some c) (App.top10_cities_main view)
    then count (at_key yr c) view else 0.
Proof.
  rewrite complete_keys_count, count_map. unfold App.df_top10.
  rewrite count_filter.
  destruct (Pandas.isin (Some c) (App.top10_cities_main view)) eqn:E.
  - apply count_ext. intros r _. unfold at_key.
    destruct (App.model_year r) as [yr'|], (App.city r) as [c'|];
      rewrite ?andb_false_r; trivial.
    unfold Pandas.key_eqb; simpl.
    rewrite (Z.eqb_sym yr yr'), (String.eqb_sym c c').
    destruct (Z.eqb yr' yr); simpl; [|now rewrite andb_false_r].
    destruct (String.eqb_spec c' c) as [->|Hne].
    + simpl in E. unfold Pandas.isin. now rewrite E.
    + now rewrite andb_false_r.
  - apply count_none. intros r _.
    destruct (App.model_year r) as [yr'|], (App.city r) as [c'|];
      rewrite ?andb_false_r; trivial.
    unfold Pandas.key_eqb; simpl.
    destruct (String.eqb_spec c c') as [<-|Hne].
    + unfold Pandas.isin in *. now rewrite E.
    + now rewrite !andb_false_r.
Qed.

(** C2. The growth table is the group count of the frame restricted to
    the rows whose city is among the top cities, and those top cities are
    the index of the ten-city ranking of the very same frame.  It lists a
    (year, city) pair with count [n] exactly when the city is a top city
    and [n], a positive number, is the number of rows of the frame with
    that year and city; so every listed city is a top city, every listed
    pair has a row under it, a pair without rows is not listed, and no
    pair is listed twice. *)
Theorem C2_growth_counts (view : App.DataFrame) :
  let topCities := App.top10_cities_main view in
  topCities = Pandas.index (App.topN view App.city 10)
  /\ App.growth view
     = Pandas.groupby_size
         (map (fun r => (App.model_year r, App.city r))
              (filter (fun r => Pandas.isin (App.city r) topCities) view))
  /\ (forall yr c n,
        In ((yr, c), n) (App.growth view)
        <-> In c topCities /\ n = count (at_key yr c) view /\ 0 < n)
  /\ (forall yr c n,
        In ((yr, c), n) (App.growth view) ->
        exists r, In r view /\ App.model_year r = Some yr /\ App.city r = Some c)
  /\ NoDup (map fst (App.growth view)).
Proof.
  cbv zeta.
  assert (Hiff : forall yr c n,
             In ((yr, c), n) (App.growth view)
             <-> In c (App.top10_cities_main view)
                 /\ n = count (at_key yr c) view /\ 0 < n).
  { intros yr c n. unfold App.growth.
    rewrite groupby_size_In, growth_count.
    destruct (Pandas.isin (Some c) (App.top10_cities_main view)) eqn:E.
    - apply isin_In in E. destruct E as (c' & Hc' & Hin).
      inversion Hc'; subst. tauto.
    - split; [lia|]. intros (Hin & _). exfalso.
      assert (Pandas.isin (Some c) (App.top10_cities_main view) = true)
        by (apply isin_In; eauto).
      congruence. }
  split; [reflexivity|]. split; [reflexivity|]. split; [exact Hiff|].
  split.
  - intros yr c n Hin. apply Hiff in Hin. destruct Hin as (_ & -> & Hpos).
    apply count_pos in Hpos. destruct Hpos as (r & Hr & Hkey).
    exists r. split; [exact Hr|]. unfold at_key in Hkey.
    destruct (App.model_year r) as [yr'|], (App.city r) as [c'|];
      try discriminate.
    apply andb_true_iff in Hkey. destruct Hkey as [Hy Hc].
    apply Z.eqb_eq in Hy. apply String.eqb_eq in Hc. now subst.
  - apply groupby_size_NoDup.
Qed.

(** * Price groups per vehicle type *)

Lemma ascii_lt_trans (a b c : ascii) :
  Ascii.compare a b = Lt -> Ascii.compare b c = Lt -> Ascii.compare a c = Lt.
Proof.
  unfold Ascii.compare. rewrite !N.compare_lt_iff. apply N.lt_trans.
Qed.

Lemma string_lt_trans (s1 s2 s3 : string) :
  String.compare s1 s2 = Lt -> String.compare s2 s3 = Lt ->
  String.compare s1 s3 = Lt.
Proof.
  revert s2 s3. induction s1 as [|a s1 IH]; intros [|b s2] [|c s3]; simpl;
    try congruence.
  destruct (Ascii.compare a b) eqn:Eab; try discriminate;
    destruct (Ascii.compare b c) eqn:Ebc; try discriminate; intros H12 H23.
  - apply Ascii.compare_eq_iff in Eab, Ebc. subst.
    assert (E : Ascii.compare c c = Eq).
    { unfold Ascii.compare. apply N.compare_refl. }
    rewrite E. eauto.
  - apply Ascii.compare_eq_iff in Eab. subst. now rewrite Ebc.
  - apply Ascii.compare_eq_iff in Ebc. subst. now rewrite Eab.
  - now rewrite (ascii_lt_trans _ _ _ Eab Ebc).
Qed.

Lemma leb_neq_ltb (s1 s2 : string) :
  String.leb s1 s2 = true -> s1 <> s2 -> String.ltb s1 s2 = true.
Proof.
  unfold String.leb, String.ltb. intros Hle Hne.
  destruct (String.compare s1 s2) eqn:E; trivial.
  apply String.compare_eq_iff in E. contradiction.
Qed.

Lemma sort_strings_ascending (l : list string) :
  NoDup l -> ascending (Pandas.sort_by String.leb l).
Proof.
  intros Hnd. unfold ascending.
  apply Sorted_StronglySorted.
  { intros a b c. unfold String.ltb.
    destruct (String.compare a b) eqn:Eab; try discriminate.
    destruct (String.compare b c) eqn:Ebc; try discriminate.
    now rewrite (string_lt_trans _ _ _ Eab Ebc). }
  assert (Hnd' : NoDup (Pandas.sort_by String.leb l)).
  { eapply Permutation_NoDup; [symmetry; apply sort_by_perm | exact Hnd]. }
  assert (Hs := sort_by_sorted String.leb String.leb_total l).
  induction Hs as [|x t Hs IH Hhd]; constructor.
  - apply IH. now inversion Hnd'.
  - destruct Hhd as [|y t' Hxy]; constructor.
    apply leb_neq_ltb; [exact Hxy|].
    inversion Hnd' as [|? ? Hnotin _]; subst.
    intros ->. apply Hnotin. now left.
Qed.

Lemma cell_eqb_spec (a b : option string) : reflect (a = b) (Pandas.cell_eqb a b).
Proof.
  destruct a as [s|], b as [t|]; simpl; try (constructor; congruence).
  destruct (String.eqb_spec s t); constructor; congruence.
Qed.

Lemma unique_In (col : list (option string)) (c : option string) :
  In c (Pandas.unique col) <-> In c col.
Proof.
  unfold Pandas.unique. rewrite (@distinct_In _ _ cell_eqb_spec). simpl. tauto.
Qed.

Lemma unique_NoDup (col : list (option string)) : NoDup (Pandas.unique col).
Proof. apply (@distinct_NoDup _ _ cell_eqb_spec). Qed.

Lemma dropna_NoDup (A : Type) (col : list (option A)) :
  NoDup col -> NoDup (Pandas.dropna col).
Proof.
  induction 1 as [|[a|] col Hnotin Hnd IH]; simpl; trivial.
  - constructor.
  - constructor; [|exact IH]. now rewrite dropna_In.
Qed.

Lemma NoDup_map_Some (A : Type) (l : list A) : NoDup l -> NoDup (map Some l).
Proof.
  induction 1 as [|a l Hnotin Hnd IH]; simpl; constructor; trivial.
  rewrite in_map_iff. intros (b & Hb & Hin). now inversion Hb; subst.
Qed.

Lemma sorted_present (l : list (option string)) :
  forallb Pandas.notna l = true ->
  Pandas.sorted l = Ok (map Some (Pandas.sort_by String.leb (Pandas.dropna l))).
Proof.
  intros H. unfold Pandas.sorted.
  destruct l as [|[s|] [|c l]]; try discriminate; trivial.
  now rewrite H.
Qed.

Lemma priced_values (p : App.Row -> bool) (view : App.DataFrame) :
  map App.base_msrp (filter p (App.df_type_price view))
  = map Some (Pandas.dropna (map App.base_msrp (filter p view))).
Proof.
  unfold App.df_type_price. induction view as [|r view IH]; simpl; trivial.
  destruct (App.base_msrp r) as [price|] eqn:E; simpl;
    destruct (p r); simpl; rewrite ?E; simpl; congruence.
Qed.

(** The categories of the box plot: the sorted distinct types of the
    priced rows. *)
Lemma categories_spec (view : App.DataFrame) :
  let cats :=
    Pandas.sort_by String.leb
      (Pandas.dropna
         (Pandas.unique (map App.vehicle_type (App.df_type_price view)))) in
  ascending cats /\ NoDup cats /\ forall t, In t cats <-> has_priced_row view t.
Proof.
  cbv zeta.
  assert (Hnd : NoDup (Pandas.dropna (Pandas.unique
                 (map App.vehicle_type (App.df_type_price view))))).
  { apply dropna_NoDup, unique_NoDup. }
  split; [now apply sort_strings_ascending|].
  split.
  { eapply Permutation_NoDup; [symmetry; apply sort_by_perm | exact Hnd]. }
  intros t. rewrite sort_by_In, dropna_In, unique_In, in_map_iff.
  unfold has_priced_row, App.df_type_price. split.
  - intros (r & Ht & Hin). apply filter_In in Hin. destruct Hin as [Hin Hp].
    exists r. repeat split; trivial.
    destruct (App.base_msrp r); [discriminate | discriminate].
  - intros (r & Hin & Ht & Hp). exists r. split; [exact Ht|].
    apply filter_In. split; [exact Hin|].
    now destruct (App.base_msrp r).
Qed.

Lemma fig_box_type_typed (view : App.DataFrame) :
  (forall r, In r view -> App.vehicle_type r <> None) ->
  App.fig_box_type view
  = Ok (map (fun t => App.mkBoxTrace (Some t) (map Some (prices_of view t)))
            (Pandas.sort_by String.leb
               (Pandas.dropna
                  (Pandas.unique
                     (map App.vehicle_type (App.df_type_price view)))))).
Proof.
  intros Htyped. unfold App.fig_box_type.
  rewrite sorted_present.
  - rewrite map_map. f_equal. apply map_ext. intros t.
    unfold App.box_trace, prices_of. f_equal.
    apply (priced_values (fun r => holds t (App.vehicle_type r))).
  - apply forallb_forall. intros c Hc.
    apply unique_In, in_map_iff in Hc. destruct Hc as (r & <- & Hin).
    apply filter_In in Hin. destruct Hin as [Hin _].
    specialize (Htyped r Hin). now destruct (App.vehicle_type r).
Qed.

Lemma view_typed (df : App.DataFrame) (fs : App.FilterState) (r : App.Row) :
  In r (App.df_filtered df fs) -> App.vehicle_type r <> None.
Proof.
  rewrite df_filtered_filter, filter_In, passes_Satisfies.
  intros (_ & _ & (t & Ht & _) & _). congruence.
Qed.

Lemma prices_of_length (view : App.DataFrame) (t : string) :
  List.length (prices_of view t)
  = count (fun r => holds t (App.vehicle_type r) && Pandas.notna (App.base_msrp r))
          view.
Proof.
  unfold prices_of. now rewrite dropna_length, count_map, count_filter.
Qed.

Lemma one_category (cats : list string) (t0 : string) :
  NoDup cats -> In t0 cats ->
  total (map (fun t => if String.eqb t0 t then 1 else 0) cats) = 1.
Proof.
  induction 1 as [|t cats Hnotin Hnd IH]; simpl; [contradiction|].
  intros [->|Hin].
  - rewrite String.eqb_refl. f_equal.
    clear IH Hnd. induction cats as [|t cats IH]; simpl; trivial.
    destruct (String.eqb_spec t0 t) as [->|Hne].
    + exfalso. apply Hnotin. now left.
    + apply IH. intros H. apply Hnotin. now right.
  - destruct (String.eqb_spec t0 t) as [->|Hne]; [contradiction|].
    now apply IH.
Qed.

Lemma total_zero (A : Type) (l : list A) : total (map (fun _ => 0) l) = 0.
Proof. induction l; simpl; trivial. Qed.

Lemma total_plus (A : Type) (f g : A -> nat) (l : list A) :
  total (map (fun a => f a + g a) l) = total (map f l) + total (map g l).
Proof. induction l as [|a l IH]; simpl; lia. Qed.

(** The categories split the selected rows: each row that passes [q] and
    has its type among [cats] is counted under one category. *)
Lemma partition_total (cats : list string) (q : App.Row -> bool)
    (view : App.DataFrame) :
  NoDup cats ->
  (forall r, In r view -> q r = true ->
             exists t, In t cats /\ App.vehicle_type r = Some t) ->
  total (map (fun t => count (fun r => holds t (App.vehicle_type r) && q r) view)
             cats)
  = count q view.
Proof.
  intros Hnd. induction view as [|r view IH]; intros Hcov.
  - unfold count; simpl. apply total_zero.
  - assert (IH' := IH (fun r' Hin => Hcov r' (or_intror Hin))). clear IH.
    rewrite <- (map_ext
      (fun t => (if holds t (App.vehicle_type r) && q r then 1 else 0)
                + count (fun r0 => holds t (App.vehicle_type r0) && q r0) view)).
    2:{ intros t. unfold count; simpl.
        now destruct (holds t (App.vehicle_type r) && q r). }
    rewrite total_plus, IH'. unfold count at 2; simpl.
    destruct (q r) eqn:Eq; simpl.
    + destruct (Hcov r (or_introl eq_refl) Eq) as (t0 & Hin & Ht0).
      rewrite Ht0. unfold holds; simpl.
      fold (count q view).
      assert (E : total (map (fun t => if String.eqb t0 t && true then 1 else 0)
                             cats) = 1).
      { etransitivity; [|exact (@one_category cats t0 Hnd Hin)].
        f_equal. apply map_ext. intros t. now rewrite andb_true_r. }
      rewrite E. reflexivity.
    + rewrite <- (map_ext (fun _ => 0)).
      2:{ intros t. now rewrite andb_false_r. }
      now rewrite total_zero.
Qed.

Lemma prices_of_In (view : App.DataFrame) (t : string) (price : Z) :
  In price (prices_of view t)
  <-> exists r, In r view /\ App.vehicle_type r = Some t
                /\ App.base_msrp r = Some price.
Proof.
  unfold prices_of. rewrite dropna_In, in_map_iff. split.
  - intros (r & Hp & Hin). apply filter_In in Hin. destruct Hin as [Hin Ht].
    exists r. repeat split; trivial.
    unfold holds in Ht. destruct (App.vehicle_type r) as [t'|]; [|discriminate].
    simpl in Ht. apply String.eqb_eq in Ht. now subst.
  - intros (r & Hin & Ht & Hp). exists r. split; [exact Hp|].
    apply filter_In. split; [exact Hin|].
    unfold holds. rewrite Ht. simpl. apply String.eqb_refl.
Qed.

(** C7. On a filtered frame the box plot gets one trace per category,
    where the categories are the distinct vehicle types of the rows that
    have a price, in strictly ascending order, and the values of a
    category are the prices of its rows in frame order.  A row without a
    price is in no category: the groups hold, between them, exactly the
    rows that have a price. *)
Theorem C7_numeric_groups (df : App.DataFrame) (fs : App.FilterState) :
  let view := App.df_filtered df fs in
  exists cats,
    App.fig_box_type view
    = Ok (map (fun t => App.mkBoxTrace (Some t) (map Some (prices_of view t)))
              cats)
    /\ ascending cats
    /\ NoDup cats
    /\ (forall t, In t cats <-> has_priced_row view t)
    /\ (forall t,
          List.length (prices_of view t)
          = count (fun r => holds t (App.vehicle_type r)
                            && Pandas.notna (App.base_msrp r)) view)
    /\ total (map (fun t => List.length (prices_of view t)) cats)
       = count (fun r => Pandas.notna (App.base_msrp r)) view.
Proof.
  intros view.
  destruct (categories_spec view) as (Hasc & Hnd & Hcats).
  eexists. split; [apply fig_box_type_typed; intros r; apply view_typed|].
  repeat split; try assumption; try apply Hcats.
  - apply prices_of_length.
  - rewrite (map_ext _ _ (prices_of_length view)).
    apply partition_total; [exact Hnd|].
    intros r Hin Hp.
    destruct (App.vehicle_type r) as [t|] eqn:Ht.
    + exists t. split; [|reflexivity]. apply Hcats.
      exists r. repeat split; trivial. now destruct (App.base_msrp r).
    + exfalso. now apply (view_typed df fs r Hin).
Qed.

(** C10. On a filtered frame the names of the box traces are exactly the
    vehicle types that occur on a row with a price, each once.  A type
    whose rows all lack a price has no trace, and no trace is empty. *)
Theorem C10_groups_nonempty (df : App.DataFrame) (fs : App.FilterState) :
  let view := App.df_filtered df fs in
  exists traces,
    App.fig_box_type view = Ok traces
    /\ NoDup (map App.name traces)
    /\ (forall c, In c (map App.name traces)
                  <-> exists t, c = Some t /\ has_priced_row view t)
    /\ (forall t,
          (forall r, In r view -> App.vehicle_type r = Some t ->
                     App.base_msrp r = None) ->
          ~ In (Some t) (map App.name traces))
    /\ (forall tr, In tr traces -> App.y tr <> []).
Proof.
  intros view.
  destruct (categories_spec view) as (_ & Hnd & Hcats).
  eexists. split; [apply fig_box_type_typed; intros r; apply view_typed|].
  rewrite map_map. simpl.
  assert (Hnames : forall c,
             In c (map Some
                       (Pandas.sort_by String.leb
                          (Pandas.dropna
                             (Pandas.unique
                                (map App.vehicle_type
                                     (App.df_type_price view))))))
             <-> exists t, c = Some t /\ has_priced_row view t).
  { intros c. rewrite in_map_iff. split.
    - intros (t & <- & Hin). exists t. split; [reflexivity|]. now apply Hcats.
    - intros (t & -> & Hrow). exists t. split; [reflexivity|]. now apply Hcats. }
  split; [|split; [exact Hnames|split]].
  - now apply NoDup_map_Some.
  - intros t Hall Hin. apply Hnames in Hin.
    destruct Hin as (t' & Heq & r & Hin & Ht & Hp). inversion Heq; subst t'.
    apply Hp. now apply Hall.
  - intros tr Htr. apply in_map_iff in Htr. destruct Htr as (t & <- & Hin).
    apply Hcats in Hin. destruct Hin as (r & Hin & Ht & Hp). simpl.
    destruct (App.base_msrp r) as [price|] eqn:E; [|congruence].
    assert (Hprice : In price (prices_of view t)).
    { apply prices_of_In. now exists r. }
    destruct (prices_of view t); [contradiction | discriminate].
Qed.

(** * Loading *)

Lemma load_data_table (parse_number : string -> option Z)
    (rows : list App.RawRow) :
  App.load_data parse_number (App.Table rows)
  = Ok (filter (fun r => Pandas.notna (App.model_year r))
               (map (App.coerce parse_number) rows)).
Proof. reflexivity. Qed.

Lemma notna_present (A : Type) (c : option A) :
  Pandas.notna c = true <-> c <> None.
Proof. destruct c; simpl; split; congruence. Qed.

(** C4. When loading succeeds the source was a readable table and the
    frame is that table, in order, without the rows that have no year.
    In the three numeric columns a cell whose text reads as a number holds
    that number, and a cell that is empty or does not read as a number is
    missing; the other columns are taken as they are.  A row of the table
    is in the frame exactly when the text of its year reads as a number,
    so every row of the frame has a year. *)
Theorem C4_loader_drops_missing_years (parse_number : string -> option Z)
    (src : App.Source) (df : App.DataFrame) :
  App.load_data parse_number src = Ok df ->
  exists rows,
    src = App.Table rows
    /\ df = filter (fun r => Pandas.notna (App.model_year r))
                   (map (App.coerce parse_number) rows)
    /\ (forall s n, parse_number s = Some n ->
                    App.to_numeric parse_number (Some s) = Some n)
    /\ (forall s, parse_number s = None ->
                  App.to_numeric parse_number (Some s) = None)
    /\ App.to_numeric parse_number None = None
    /\ (forall raw,
          let r := App.coerce parse_number raw in
          (forall s, App.raw_model_year raw = Some s ->
                     App.model_year r = parse_number s)
          /\ (App.raw_model_year raw = None -> App.model_year r = None)
          /\ (forall s, App.raw_base_msrp raw = Some s ->
                        App.base_msrp r = parse_number s)
          /\ (App.raw_base_msrp raw = None -> App.base_msrp r = None)
          /\ (forall s, App.raw_electric_range raw = Some s ->
                        App.electric_range r = parse_number s)
          /\ (App.raw_electric_range raw = None -> App.electric_range r = None)
          /\ App.vehicle_type r = App.raw_vehicle_type raw
          /\ App.city r = App.raw_city raw
          /\ App.make r = App.raw_make raw)
    /\ (forall r, In r df <->
                  exists raw s yr,
                    In raw rows /\ r = App.coerce parse_number raw
                    /\ App.raw_model_year raw = Some s
                    /\ parse_number s = Some yr)
    /\ (forall r, In r df -> exists yr, App.model_year r = Some yr).
Proof.
  destruct src as [|rows]; simpl; [discriminate|].
  intros H. injection H as <-. exists rows.
  split; [reflexivity|]. split; [reflexivity|].
  split; [intros s n Hs; exact Hs|].
  split; [intros s Hs; exact Hs|]. split; [reflexivity|].
  split.
  { intros raw. cbv zeta. simpl.
    repeat split; try (intros s ->; reflexivity); intros ->; reflexivity. }
  split.
  - intros r. rewrite filter_In, in_map_iff. split.
    + intros ((raw & <- & Hin) & Hyr). simpl in Hyr.
      destruct (App.raw_model_year raw) as [s|] eqn:Es; [|discriminate].
      simpl in Hyr. destruct (parse_number s) as [yr|] eqn:Ep; [|discriminate].
      exists raw, s, yr. auto.
    + intros (raw & s & yr & Hin & -> & Es & Ep). split.
      * now exists raw.
      * simpl. rewrite Es. simpl. now rewrite Ep.
  - intros r Hin. apply filter_In in Hin. destruct Hin as [_ Hyr].
    destruct (App.model_year r) as [yr|]; [now exists yr | discriminate].
Qed.

Lemma load_data_raises (parse_number : string -> option Z) (src : App.Source) :
  raises (App.load_data parse_number src) = true <-> src = App.Unreadable.
Proof. destruct src; simpl; split; congruence. Qed.

Lemma no_valid_rows_empty (parse_number : string -> option Z)
    (rows : list App.RawRow) :
  no_valid_rows parse_number (App.Table rows)
  <-> filter (fun r => Pandas.notna (App.model_year r))
             (map (App.coerce parse_number) rows) = [].
Proof.
  simpl. induction rows as [|raw rows IH]; simpl.
  - split; [reflexivity | constructor].
  - destruct (App.to_numeric parse_number (App.raw_model_year raw)) eqn:E; simpl.
    + split; [|discriminate]. intros H. inversion H; congruence.
    + rewrite <- IH. split.
      * intros H. now inversion H.
      * intros H. now constructor.
Qed.

Lemma series_min_present (col : list (option Z)) :
  Pandas.dropna col <> [] -> exists lo, Pandas.series_min col = Some lo.
Proof.
  unfold Pandas.series_min. destruct (Pandas.dropna col); [congruence|eauto].
Qed.

Lemma series_max_present (col : list (option Z)) :
  Pandas.dropna col <> [] -> exists hi, Pandas.series_max col = Some hi.
Proof.
  unfold Pandas.series_max. destruct (Pandas.dropna col); [congruence|eauto].
Qed.

Lemma years_of_loaded (parse_number : string -> option Z)
    (rows : list App.RawRow) :
  let df := filter (fun r => Pandas.notna (App.model_year r))
                   (map (App.coerce parse_number) rows) in
  df <> [] -> Pandas.dropna (map App.model_year df) <> [].
Proof.
  cbv zeta.
  destruct (filter _ _) as [|r df] eqn:E; [congruence|]. intros _.
  assert (Hin : In r (r :: df)) by now left.
  rewrite <- E in Hin. apply filter_In in Hin. destruct Hin as [_ Hyr].
  simpl. destruct (App.model_year r); [discriminate | discriminate].
Qed.

Lemma fig_box_type_view_ok (df : App.DataFrame) (fs : App.FilterState) :
  exists traces, App.fig_box_type (App.df_filtered df fs) = Ok traces.
Proof.
  eexists. apply fig_box_type_typed. intros r. apply view_typed.
Qed.

Lemma startup_table (parse_number : string -> option Z)
    (rows : list App.RawRow) (page : list App.Element) :
  let df := filter (fun r => Pandas.notna (App.model_year r))
                   (map (App.coerce parse_number) rows) in
  App.startup parse_number (App.Table rows) page
  = match Pandas.series_min (map App.model_year df),
          Pandas.series_max (map App.model_year df) with
    | Some lo, Some hi =>
        (page ++ [App.Title; App.SidebarHeader; App.YearSlider lo hi], Ok df)
    | _, _ => (page ++ [App.Title; App.SidebarHeader], Raise ValueError)
    end.
Proof.
  cbv zeta. unfold App.startup, App.bind, App.emit, App.lift, App.ret.
  rewrite load_data_table.
  destruct (Pandas.series_min _) as [lo|]; simpl;
    [destruct (Pandas.series_max _) as [hi|]; simpl|];
    rewrite <- !app_assoc; reflexivity.
Qed.

Lemma startup_unreadable (parse_number : string -> option Z) :
  App.startup parse_number App.Unreadable [] = ([App.Title], Raise ReadError).
Proof. reflexivity. Qed.

Lemma startup_no_valid_rows (parse_number : string -> option Z)
    (src : App.Source) :
  no_valid_rows parse_number src ->
  App.startup parse_number src []
  = ([App.Title; App.SidebarHeader], Raise ValueError).
Proof.
  destruct src as [|rows]; [intros []|]. intros Hnone.
  apply no_valid_rows_empty in Hnone.
  rewrite startup_table. cbv zeta. rewrite Hnone. reflexivity.
Qed.

(** C5, as the code has it.  load_data fails exactly when the source
    cannot be read.  On a source without a valid row it returns the empty
    frame, and the script stops at its next step, the lower bound of the
    year slider, with the ValueError of int(NaN): the title and the
    side-bar header are on the page by then, no widget and no chart.  On
    a source that cannot be read the script stops in load_data, after the
    title. *)
Theorem C5_loader_failure (parse_number : string -> option Z)
    (src : App.Source) :
  (raises (App.load_data parse_number src) = true <-> src = App.Unreadable)
  /\ (no_valid_rows parse_number src ->
      App.load_data parse_number src = Ok []
      /\ App.startup parse_number src []
         = ([App.Title; App.SidebarHeader], Raise ValueError))
  /\ (src = App.Unreadable ->
      App.startup parse_number src [] = ([App.Title], Raise ReadError))
  /\ (src = App.Unreadable \/ no_valid_rows parse_number src ->
      raises (snd (App.startup parse_number src [])) = true
      /\ existsb App.is_widget_or_chart
                 (fst (App.startup parse_number src [])) = false).
Proof.
  split; [apply load_data_raises|].
  split.
  { intros Hnone. split; [|now apply startup_no_valid_rows].
    destruct src as [|rows]; [destruct Hnone|].
    rewrite load_data_table. f_equal. now apply no_valid_rows_empty. }
  split; [intros ->; apply startup_unreadable|].
  intros [->|Hnone].
  - split; reflexivity.
  - rewrite (@startup_no_valid_rows _ _ Hnone). split; reflexivity.
Qed.

(** C5, as the claim has it, fails: the sample file whose only row has no
    readable year has no valid row, and load_data returns the empty frame
    for it instead of failing; the script stops only afterwards, with the
    title and the side-bar header on the page. *)
Lemma C5_loader_returns_empty_frame :
  let src := Sample.file_without_years in
  no_valid_rows Sample.parse_decimal src
  /\ App.load_data Sample.parse_decimal src = Ok []
  /\ App.startup Sample.parse_decimal src []
     = ([App.Title; App.SidebarHeader], Raise ValueError)
  /\ ~ (raises (App.load_data Sample.parse_decimal src) = true
        <-> src = App.Unreadable \/ no_valid_rows Sample.parse_decimal src).
Proof.
  cbv zeta.
  assert (Hnone : no_valid_rows Sample.parse_decimal Sample.file_without_years).
  { repeat constructor. }
  split; [exact Hnone|]. split; [reflexivity|]. split; [reflexivity|].
  intros [_ Hfail]. specialize (Hfail (or_intror Hnone)). discriminate.
Qed.

(** C4 on a sample file of three rows: the row whose year reads "n/a" is
    dropped, the row whose price reads "call us" stays with a missing
    price, and the numbers of the other cells are the numbers written. *)
Lemma C4_loader_sample :
  App.load_data Sample.parse_decimal Sample.file_with_bad_cells
  = Ok [App.mkRow (Some 2020%Z) (Some "BEV"%string) (Some "Seattle"%string)
                  (Some "Tesla"%string) (Some 40000%Z) None;
        App.mkRow (Some 2021%Z) (Some "BEV"%string) (Some "Seattle"%string)
                  (Some "Tesla"%string) None None]
  /\ exists rows,
       Sample.file_with_bad_cells = App.Table rows
       /\ forall s n, Sample.parse_decimal s = Some n ->
                      App.to_numeric Sample.parse_decimal (Some s) = Some n.
Proof.
  assert (H : App.load_data Sample.parse_decimal Sample.file_with_bad_cells
              = Ok [App.mkRow (Some 2020%Z) (Some "BEV"%string)
                              (Some "Seattle"%string) (Some "Tesla"%string)
                              (Some 40000%Z) None;
                    App.mkRow (Some 2021%Z) (Some "BEV"%string)
                              (Some "Seattle"%string) (Some "Tesla"%string)
                              None None]) by reflexivity.
  split; [exact H|].
  destruct (@C4_loader_drops_missing_years Sample.parse_decimal
              Sample.file_with_bad_cells _ H)
    as (rows & Hsrc & _ & Hnum & _).
  exists rows. split; [exact Hsrc | exact Hnum].
Defined.

(** * The empty frame *)

(** C8. On a frame without rows every aggregation returns the empty
    result of its shape: the rankings, the growth table and the
    distribution are empty tables, and the box plot has no trace and is
    computed without an exception.  Filtering the empty frame gives the
    empty frame. *)
Theorem C8_empty_view_empty_results :
  (forall field n, App.topN [] field n = [])
  /\ App.city_counts [] = []
  /\ App.makes_counts [] = []
  /\ App.growth [] = []
  /\ (forall field, App.distribution [] field = [])
  /\ App.type_counts [] = []
  /\ App.fig_box_type [] = Ok []
  /\ (forall fs, App.df_filtered [] fs = []).
Proof.
  split; [intros field [|n]; reflexivity|].
  repeat (split; [reflexivity|]).
  intros fs. unfold App.df_filtered; simpl.
  now destruct (App.truthy _), (App.truthy _).
Qed.

(** * The scenario of the specification, evaluated *)

Example scenario_view : Sample.view = Sample.dataset.
Proof. reflexivity. Qed.

Example scenario_cities :
  App.topN Sample.view App.city 10
  = [("Seattle"%string, 2); ("Bellevue"%string, 1)].
Proof. reflexivity. Qed.

Example scenario_types :
  App.distribution Sample.view App.vehicle_type
  = [("BEV"%string, 2); ("PHEV"%string, 1)].
Proof. reflexivity. Qed.

Example scenario_prices :
  App.fig_box_type Sample.view
  = Ok [App.mkBoxTrace (Some "BEV"%string) [Some 40000%Z; Some 42000%Z]].
Proof. reflexivity. Qed.

Example scenario_growth :
  App.growth Sample.view
  = [((2020%Z, "Bellevue"%string), 1); ((2020%Z, "Seattle"%string), 1);
     ((2021%Z, "Seattle"%string), 1)].
Proof. reflexivity. Qed.

Example scenario_single_year :
  map App.model_year
      (App.df_filtered Sample.dataset
         (App.mkFilterState (2020%Z, 2020%Z) ["BEV"%string; "PHEV"%string] [] []))
  = [Some 2020%Z; Some 2020%Z].
Proof. reflexivity. Qed.

(** Two cities with one registration each: the tie comes out in the same
    order in the bar chart and in the list used for the growth table. *)
Example tied_cities :
  let tie := App.df_filtered Sample.dataset
               (App.mkFilterState (2020%Z, 2020%Z)
                                  ["BEV"%string; "PHEV"%string] [] []) in
  Pandas.values (App.city_counts tie) = [1; 1]
  /\ App.top10_cities_main tie = Pandas.index (App.city_counts tie).
Proof. split; reflexivity. Qed.

Example run_without_years :
  App.startup Sample.parse_decimal Sample.file_without_years []
  = ([App.Title; App.SidebarHeader], Raise ValueError).
Proof. reflexivity. Qed.

Example sample_dataset_rows :
  Sample.dataset
  = [App.mkRow (Some 2020%Z) (Some "BEV"%string) (Some "Seattle"%string)
               (Some "Tesla"%string) (Some 40000%Z) None;
     App.mkRow (Some 2020%Z) (Some "PHEV"%string) (Some "Bellevue"%string)
               (Some "Toyota"%string) None None;
     App.mkRow (Some 2021%Z) (Some "BEV"%string) (Some "Seattle"%string)
               (Some "Tesla"%string) (Some 42000%Z) None].
Proof. reflexivity. Qed.

(** * The side bar: year bounds, options and the initial selection *)

Lemma fold_min_spec (rest : list Z) (y : Z) :
  let m := fold_left Z.min rest y in
  (m <= y)%Z /\ (forall z, In z rest -> (m <= z)%Z) /\ In m (y :: rest).
Proof.
  revert y. induction rest as [|z rest IH]; intros y; simpl.
  - repeat split; [lia | tauto | now left].
  - destruct (IH (Z.min y z)) as (Hle & Hall & Hin). repeat split.
    + lia.
    + intros z' [<-|Hz']; [lia | now apply Hall].
    + destruct Hin as [Hin|Hin]; [|now right; right].
      rewrite <- Hin. destruct (Z.min_spec y z) as [[_ ->]|[_ ->]]; auto.
Qed.

Lemma fold_max_spec (rest : list Z) (y : Z) :
  let m := fold_left Z.max rest y in
  (y <= m)%Z /\ (forall z, In z rest -> (z <= m)%Z) /\ In m (y :: rest).
Proof.
  revert y. induction rest as [|z rest IH]; intros y; simpl.
  - repeat split; [lia | tauto | now left].
  - destruct (IH (Z.max y z)) as (Hle & Hall & Hin). repeat split.
    + lia.
    + intros z' [<-|Hz']; [lia | now apply Hall].
    + destruct Hin as [Hin|Hin]; [|now right; right].
      rewrite <- Hin. destruct (Z.max_spec y z) as [[_ ->]|[_ ->]]; auto.
Qed.

Lemma series_min_spec (col : list (option Z)) (lo : Z) :
  Pandas.series_min col = Some lo ->
  In (Some lo) col /\ forall y, In (Some y) col -> (lo <= y)%Z.
Proof.
  unfold Pandas.series_min.
  destruct (Pandas.dropna col) as [|y0 rest] eqn:E; [discriminate|].
  intros H. injection H as <-.
  destruct (fold_min_spec rest y0) as (Hle & Hall & Hin). split.
  - apply dropna_In. now rewrite E.
  - intros y Hy. apply dropna_In in Hy. rewrite E in Hy.
    destruct Hy as [<-|Hy]; [exact Hle | now apply Hall].
Qed.

Lemma series_max_spec (col : list (option Z)) (hi : Z) :
  Pandas.series_max col = Some hi ->
  In (Some hi) col /\ forall y, In (Some y) col -> (y <= hi)%Z.
Proof.
  unfold Pandas.series_max.
  destruct (Pandas.dropna col) as [|y0 rest] eqn:E; [discriminate|].
  intros H. injection H as <-.
  destruct (fold_max_spec rest y0) as (Hle & Hall & Hin). split.
  - apply dropna_In. now rewrite E.
  - intros y Hy. apply dropna_In in Hy. rewrite E in Hy.
    destruct Hy as [<-|Hy]; [exact Hle | now apply Hall].
Qed.

(** X1. When the start of the script gets as far as the year slider, the
    two bounds of the slider are years of rows of the frame, the lower one
    is not above the upper one, and the year of every row lies between
    them; the page holds the title, the side-bar header and the slider. *)
Theorem startup_year_bounds (parse_number : string -> option Z)
    (src : App.Source) (page page' : list App.Element) (df : App.DataFrame) :
  App.startup parse_number src page = (page', Ok df) ->
  exists lo hi,
    page' = page ++ [App.Title; App.SidebarHeader; App.YearSlider lo hi]
    /\ (lo <= hi)%Z
    /\ (forall r, In r df ->
          exists yr, App.model_year r = Some yr /\ (lo <= yr <= hi)%Z)
    /\ (exists r, In r df /\ App.model_year r = Some lo)
    /\ (exists r, In r df /\ App.model_year r = Some hi).
Proof.
  destruct src as [|rows]; [discriminate|].
  rewrite startup_table. cbv zeta.
  destruct (Pandas.series_min _) as [lo|] eqn:Elo; [|discriminate].
  destruct (Pandas.series_max _) as [hi|] eqn:Ehi; [|discriminate].
  intros H. injection H as <- <-. exists lo, hi.
  destruct (series_min_spec _ Elo) as (Hlo_in & Hlo).
  destruct (series_max_spec _ Ehi) as (Hhi_in & Hhi).
  split; [reflexivity|]. split; [now apply Hhi|].
  split; [|split].
  - intros r Hin.
    assert (Hyr : Pandas.notna (App.model_year r) = true)
      by (apply filter_In in Hin; tauto).
    destruct (App.model_year r) as [yr|] eqn:E; [|discriminate].
    exists yr. split; [reflexivity|].
    assert (Hcol : In (Some yr)
                      (map App.model_year
                           (filter (fun r => Pandas.notna (App.model_year r))
                                   (map (App.coerce parse_number) rows)))).
    { rewrite <- E. now apply in_map. }
    split; [now apply Hlo | now apply Hhi].
  - apply in_map_iff in Hlo_in. destruct Hlo_in as (r & Hr & Hin). eauto.
  - apply in_map_iff in Hhi_in. destruct Hhi_in as (r & Hr & Hin). eauto.
Qed.

(** X1 on the sample file: the slider runs from 2020 to 2021. *)
Lemma startup_year_bounds_sample :
  App.startup Sample.parse_decimal Sample.file []
  = ([App.Title; App.SidebarHeader; App.YearSlider 2020 2021],
     Ok Sample.dataset)
  /\ exists lo hi,
       [App.Title; App.SidebarHeader; App.YearSlider 2020 2021]
       = [] ++ [App.Title; App.SidebarHeader; App.YearSlider lo hi]
       /\ (lo <= hi)%Z.
Proof.
  assert (H : App.startup Sample.parse_decimal Sample.file []
              = ([App.Title; App.SidebarHeader; App.YearSlider 2020 2021],
                 Ok Sample.dataset)) by reflexivity.
  split; [exact H|].
  destruct (@startup_year_bounds Sample.parse_decimal Sample.file [] _ _ H)
    as (lo & hi & Hpage & Hle & _).
  exists lo, hi. split; [exact Hpage | exact Hle].
Defined.

Lemma options_of_In (col : list (option string)) (s : string) :
  In s (App.options_of col) <-> In (Some s) col.
Proof.
  unfold App.options_of.
  rewrite sort_by_In, (@distinct_In _ _ String.eqb_spec), dropna_In.
  simpl. tauto.
Qed.

(** X2. The options offered by a multiselect are the values that occur in
    the column, each once, in strictly ascending order; a missing cell
    gives no option. *)
Theorem options_of_sorted_values (col : list (option string)) :
  ascending (App.options_of col)
  /\ NoDup (App.options_of col)
  /\ (forall s, In s (App.options_of col) <-> In (Some s) col)
  /\ (forall c, Pandas.isin c (App.options_of col) = true
                <-> In c col /\ c <> None).
Proof.
  assert (Hnd : NoDup (Pandas.distinct String.eqb [] (Pandas.dropna col))).
  { apply (@distinct_NoDup _ _ String.eqb_spec). }
  split; [now apply sort_strings_ascending|].
  split.
  { eapply Permutation_NoDup; [symmetry; apply sort_by_perm | exact Hnd]. }
  split; [apply options_of_In|].
  intros c. rewrite isin_In. split.
  - intros (s & -> & Hin). apply options_of_In in Hin. split; congruence.
  - intros (Hin & Hc). destruct c as [s|]; [|congruence].
    exists s. split; [reflexivity | now apply options_of_In].
Qed.

Lemma count_all (A : Type) (p : A -> bool) (l : list A) :
  (forall a, In a l -> p a = true) -> count p l = List.length l.
Proof.
  intros H. unfold count. induction l as [|a l IH]; simpl; [reflexivity|].
  rewrite (H a) by now left. simpl. f_equal. apply IH.
  intros b Hb. apply H. now right.
Qed.

(** X3. With the selection the widgets start from (the whole year range,
    every type, no city, no make) the filter drops nothing but the rows
    without a year or without a vehicle type. *)
Theorem default_state_keeps_typed_rows (df : App.DataFrame) (lo hi : Z) :
  Pandas.series_min (map App.model_year df) = Some lo ->
  Pandas.series_max (map App.model_year df) = Some hi ->
  App.df_filtered df (App.default_state df lo hi)
  = filter (fun r => Pandas.notna (App.model_year r)
                     && Pandas.notna (App.vehicle_type r)) df.
Proof.
  intros Hlo Hhi.
  destruct (series_min_spec _ Hlo) as (_ & Hmin).
  destruct (series_max_spec _ Hhi) as (_ & Hmax).
  rewrite df_filtered_filter. apply filter_ext_in. intros r Hin.
  unfold passes, App.default_state; simpl. rewrite !andb_true_r.
  f_equal.
  - destruct (App.model_year r) as [yr|] eqn:E; simpl; [|reflexivity].
    assert (Hcol : In (Some yr) (map App.model_year df)).
    { rewrite <- E. now apply in_map. }
    apply andb_true_iff. rewrite !Z.leb_le. split; auto.
  - destruct (App.vehicle_type r) as [t|] eqn:E; [|reflexivity].
    apply isin_In. exists t. split; [reflexivity|].
    apply options_of_In. rewrite <- E. now apply in_map.
Qed.

(** X3 on the sample frame: all three rows stay. *)
Lemma default_state_sample :
  Pandas.series_min (map App.model_year Sample.dataset) = Some 2020%Z
  /\ Pandas.series_max (map App.model_year Sample.dataset) = Some 2021%Z
  /\ App.df_filtered Sample.dataset
       (App.default_state Sample.dataset 2020 2021)
     = filter (fun r => Pandas.notna (App.model_year r)
                        && Pandas.notna (App.vehicle_type r)) Sample.dataset.
Proof.
  split; [reflexivity|]. split; [reflexivity|].
  apply (@default_state_keeps_typed_rows Sample.dataset 2020 2021);
    reflexivity.
Defined.

(** * Filtering twice, and what the charts can show *)

(** X4. Filtering an already filtered frame keeps the rows that pass both
    selections, so the order of two selections does not matter and
    applying the same selection again changes nothing. *)
Theorem df_filtered_twice (df : App.DataFrame) (fs1 fs2 : App.FilterState) :
  App.df_filtered (App.df_filtered df fs1) fs2
  = filter (fun r => passes fs1 r && passes fs2 r) df
  /\ App.df_filtered (App.df_filtered df fs1) fs2
     = App.df_filtered (App.df_filtered df fs2) fs1
  /\ App.df_filtered (App.df_filtered df fs1) fs1 = App.df_filtered df fs1.
Proof.
  rewrite !df_filtered_filter, !filter_twice. repeat split.
  - apply filter_ext. intros r. apply andb_comm.
  - apply filter_ext. intros r. now destruct (passes fs1 r).
Qed.

Lemma value_counts_row (view : App.DataFrame)
    (field : App.Row -> option string) (k : string) :
  In k (Pandas.index (Pandas.value_counts (map field view)))
  <-> exists r, In r view /\ field r = Some k.
Proof.
  unfold Pandas.index. rewrite in_map_iff. split.
  - intros ([k' c] & Hk & Hin). simpl in Hk. subst k'.
    apply value_counts_In in Hin. destruct Hin as [-> Hpos].
    rewrite count_map in Hpos. apply count_pos in Hpos.
    destruct Hpos as (r & Hr & Hholds). exists r. split; [exact Hr|].
    unfold holds in Hholds. destruct (field r) as [s|]; [|discriminate].
    simpl in Hholds. apply String.eqb_eq in Hholds. now subst.
  - intros (r & Hr & Hk).
    exists (k, count (holds k) (map field view)). split; [reflexivity|].
    apply value_counts_In. split; [reflexivity|].
    rewrite count_map. apply count_pos. exists r. split; [exact Hr|].
    unfold holds. rewrite Hk. simpl. apply String.eqb_refl.
Qed.

Lemma nlargest_index_In (n : nat) (s : Pandas.CountSeries string) (k : string) :
  In k (Pandas.index (Pandas.nlargest n s)) -> In k (Pandas.index s).
Proof.
  unfold Pandas.index. rewrite !in_map_iff.
  intros (e & He & Hin). exists e. split; [exact He|].
  now apply nlargest_In in Hin.
Qed.

(** X5. The charts of a filtered frame show nothing outside the
    selection: every type of the pie and of the box plot is a selected
    type, every year of the growth table lies in the selected range, and
    when cities (makes) are selected every city of the bar chart and of
    the growth table (every make of the make chart) is a selected one. *)
Theorem charts_respect_selection (df : App.DataFrame) (fs : App.FilterState) :
  let view := App.df_filtered df fs in
  (forall t, In t (Pandas.index (App.type_counts view)) ->
             In t (App.selected_types fs))
  /\ (forall traces tr, App.fig_box_type view = Ok traces -> In tr traces ->
        exists t, App.name tr = Some t /\ In t (App.selected_types fs))
  /\ (forall yr c n, In ((yr, c), n) (App.growth view) ->
        (fst (App.tahun_range fs) <= yr <= snd (App.tahun_range fs))%Z)
  /\ (App.selected_cities fs <> [] ->
      (forall c, In c (Pandas.index (App.city_counts view)) ->
                 In c (App.selected_cities fs))
      /\ (forall yr c n, In ((yr, c), n) (App.growth view) ->
                         In c (App.selected_cities fs)))
  /\ (App.selected_makes fs <> [] ->
      forall m, In m (Pandas.index (App.makes_counts view)) ->
                In m (App.selected_makes fs)).
Proof.
  intros view.
  assert (Hsat : forall r, In r view -> Satisfies fs r).
  { intros r Hin. unfold view in Hin.
    rewrite df_filtered_filter, filter_In, passes_Satisfies in Hin. tauto. }
  assert (Hgrow : forall yr c n, In ((yr, c), n) (App.growth view) ->
            exists r, In r view /\ App.model_year r = Some yr
                      /\ App.city r = Some c).
  { intros yr c n Hin. unfold App.growth in Hin.
    apply groupby_size_In in Hin. destruct Hin as [-> Hpos].
    rewrite growth_count in Hpos.
    destruct (Pandas.isin (Some c) (App.top10_cities_main view)); [|lia].
    apply count_pos in Hpos. destruct Hpos as (r & Hr & Hkey).
    exists r. split; [exact Hr|]. unfold at_key in Hkey.
    destruct (App.model_year r) as [yr'|], (App.city r) as [c'|];
      try discriminate.
    apply andb_true_iff in Hkey. destruct Hkey as [Hy Hc].
    apply Z.eqb_eq in Hy. apply String.eqb_eq in Hc. now subst. }
  split; [|split; [|split; [|split]]].
  - intros t Ht. apply value_counts_row in Ht. destruct Ht as (r & Hr & Ht).
    destruct (Hsat r Hr) as (_ & (t' & Ht' & Hin) & _). congruence.
  - intros traces tr Hfig Htr.
    rewrite fig_box_type_typed in Hfig
      by (intros r; apply view_typed).
    injection Hfig as <-. apply in_map_iff in Htr.
    destruct Htr as (t & <- & Hin). exists t. split; [reflexivity|].
    apply (proj2 (proj2 (categories_spec view))) in Hin.
    destruct Hin as (r & Hr & Ht & _).
    destruct (Hsat r Hr) as (_ & (t' & Ht' & Hsel) & _). congruence.
  - intros yr c n Hin. destruct (Hgrow yr c n Hin) as (r & Hr & Hyr & _).
    destruct (Hsat r Hr) as ((yr' & Hyr' & Hrange) & _).
    assert (yr' = yr) by congruence. now subst.
  - intros Hsel. split.
    + intros c Hc. apply nlargest_index_In, value_counts_row in Hc.
      destruct Hc as (r & Hr & Hc).
      destruct (Hsat r Hr) as (_ & _ & Hcity & _).
      destruct (Hcity Hsel) as (c' & Hc' & Hin). congruence.
    + intros yr c n Hin. destruct (Hgrow yr c n Hin) as (r & Hr & _ & Hc).
      destruct (Hsat r Hr) as (_ & _ & Hcity & _).
      destruct (Hcity Hsel) as (c' & Hc' & Hin'). congruence.
  - intros Hsel m Hm. apply nlargest_index_In, value_counts_row in Hm.
    destruct Hm as (r & Hr & Hm).
    destruct (Hsat r Hr) as (_ & _ & _ & Hmake).
    destruct (Hmake Hsel) as (m' & Hm' & Hin). congruence.
Qed.

(** X6. On a filtered frame every row has a vehicle type, so the counts
    of the pie chart add up to the number of rows of the frame. *)
Theorem type_counts_cover_view (df : App.DataFrame) (fs : App.FilterState) :
  let view := App.df_filtered df fs in
  total (Pandas.values (App.type_counts view)) = List.length view.
Proof.
  intros view. unfold App.type_counts.
  rewrite value_counts_total, count_map. apply count_all.
  intros r Hr. apply view_typed in Hr.
  now destruct (App.vehicle_type r).
Qed.

(** * How the charts fit together *)

Lemma no_category (cats : list string) (t0 : string) :
  ~ In t0 cats ->
  total (map (fun t => if String.eqb t0 t then 1 else 0) cats) = 0.
Proof.
  induction cats as [|t cats IH]; simpl; [reflexivity|]. intros Hnotin.
  destruct (String.eqb_spec t0 t) as [->|Hne]; [tauto|].
  apply IH. tauto.
Qed.

(** Counting the rows value by value over distinct values is counting the
    rows whose value is among them. *)
Lemma count_by_value (A : Type) (field : A -> option string)
    (vals : list string) (l : list A) :
  NoDup vals ->
  total (map (fun k => count (fun a => holds k (field a)) l) vals)
  = count (fun a => Pandas.isin (field a) vals) l.
Proof.
  intros Hnd. induction l as [|a l IH].
  - unfold count; simpl. apply total_zero.
  - rewrite <- (map_ext
      (fun k => (if holds k (field a) then 1 else 0)
                + count (fun a0 => holds k (field a0)) l)).
    2:{ intros k. unfold count; simpl. now destruct (holds k (field a)). }
    rewrite total_plus, IH. unfold count at 2; simpl.
    fold (count (fun a0 => Pandas.isin (field a0) vals) l).
    destruct (field a) as [s|]; simpl.
    + destruct (existsb (String.eqb s) vals) eqn:E; simpl.
      * apply (@existsb_eqb _ _ String.eqb_spec) in E.
        unfold holds; simpl. now rewrite (@one_category vals s Hnd E).
      * assert (Hnotin : ~ In s vals).
        { intros Hin. apply (@existsb_eqb _ _ String.eqb_spec) in Hin.
          congruence. }
        unfold holds; simpl. now rewrite (@no_category vals s Hnotin).
    + unfold holds; simpl. now rewrite total_zero.
Qed.

Lemma topN_values (view : App.DataFrame)
    (field : App.Row -> option string) (n : nat) :
  Pandas.values (App.topN view field n)
  = map (fun k => count (fun r => holds k (field r)) view)
        (Pandas.index (App.topN view field n)).
Proof.
  unfold Pandas.values, Pandas.index. rewrite map_map.
  apply map_ext_in. intros [k c] Hin. simpl.
  apply nlargest_In, value_counts_In in Hin. destruct Hin as [-> _].
  apply count_map.
Qed.

(** X7. The bars of the city chart add up to the number of rows of the
    frame restricted to the top cities, the frame the growth table is
    computed from. *)
Theorem city_counts_total_is_top10_rows (view : App.DataFrame) :
  total (Pandas.values (App.city_counts view))
  = List.length (App.df_top10 view).
Proof.
  change (App.city_counts view) with (App.topN view App.city 10).
  rewrite topN_values, count_by_value by apply topN_index_NoDup.
  reflexivity.
Qed.

Lemma complete_keys_length (ks : list (option Z * option string)) :
  List.length (Pandas.complete_keys ks)
  = count (fun p => Pandas.notna (fst p) && Pandas.notna (snd p)) ks.
Proof.
  unfold count. induction ks as [|[[yr|] [c|]] ks IH]; simpl; congruence.
Qed.

Lemma growth_total (view : App.DataFrame) :
  total (map snd (App.growth view))
  = count (fun r => Pandas.notna (App.model_year r)) (App.df_top10 view).
Proof.
  unfold App.growth, Pandas.groupby_size.
  rewrite (total_perm (Permutation_map snd (sort_by_perm _ _))).
  rewrite (@tally_total _ _ key_eqb_spec), complete_keys_length, count_map.
  apply count_ext. intros r Hin. simpl.
  unfold App.df_top10 in Hin. apply filter_In in Hin. destruct Hin as [_ Hc].
  destruct (App.city r); [apply andb_true_r | discriminate].
Qed.

(** X8. The counts of the growth table add up to the number of top-city
    rows that have a year.  On a filtered frame every row has one, so the
    points of the line chart add up to the same total as the bars of the
    city chart. *)
Theorem growth_total_matches_city_bars :
  (forall view,
     total (map snd (App.growth view))
     = count (fun r => Pandas.notna (App.model_year r)) (App.df_top10 view))
  /\ (forall df fs,
        let view := App.df_filtered df fs in
        total (map snd (App.growth view))
        = total (Pandas.values (App.city_counts view))).
Proof.
  split; [apply growth_total|].
  intros df fs view. rewrite growth_total.
  change (App.city_counts view) with (App.topN view App.city 10).
  rewrite topN_values, count_by_value by apply topN_index_NoDup.
  fold (App.top10_cities_main view).
  transitivity (List.length (App.df_top10 view)); [|reflexivity].
  apply count_all. intros r Hin.
  unfold App.df_top10 in Hin. apply filter_In in Hin. destruct Hin as [Hin _].
  unfold view in Hin.
  rewrite df_filtered_filter, filter_In, passes_Satisfies in Hin.
  destruct Hin as (_ & (yr & -> & _) & _). reflexivity.
Qed.

Lemma sort_by_sorted_id (A : Type) (leb : A -> A -> bool) (l : list A) :
  Sorted (fun a b => leb a b = true) l -> Pandas.sort_by leb l = l.
Proof.
  induction 1 as [|x l Hs IH Hhd]; simpl; [reflexivity|].
  rewrite IH. destruct Hhd as [|y l Hxy]; simpl; [reflexivity|].
  now rewrite Hxy.
Qed.

(** X9. Taking the n largest of a value count does not reorder it: a
    ranking is the first n entries of the distribution of the same field,
    the whole distribution when that has no more than n entries, and a
    ranking with a smaller n is the beginning of one with a larger n. *)
Theorem topN_prefix_of_distribution (view : App.DataFrame)
    (field : App.Row -> option string) (n : nat) :
  App.topN view field n = firstn n (App.distribution view field)
  /\ (List.length (App.distribution view field) <= n ->
      App.topN view field n = App.distribution view field)
  /\ (forall m, App.topN view field n
                = firstn n (App.topN view field (n + m))).
Proof.
  assert (E : forall k, App.topN view field k
                        = firstn k (App.distribution view field)).
  { intros k. unfold App.topN, App.distribution, Pandas.nlargest.
    f_equal. apply sort_by_sorted_id.
    unfold Pandas.value_counts. apply sort_by_sorted, count_geb_total. }
  split; [apply E|]. split.
  - intros Hlen. rewrite E. now apply firstn_all2.
  - intros m. rewrite !E, firstn_firstn. f_equal. lia.
Qed.

(** X10. When the frame has at most ten distinct cities, the restriction
    to the top cities only drops the rows without a city. *)
Theorem df_top10_all_cities (view : App.DataFrame) :
  List.length (Pandas.value_counts (map App.city view)) <= 10 ->
  App.df_top10 view = filter (fun r => Pandas.notna (App.city r)) view.
Proof.
  intros Hlen. unfold App.df_top10. apply filter_ext_in. intros r Hin.
  destruct (App.city r) as [c|] eqn:Hc; [|reflexivity]. simpl.
  apply (@existsb_eqb _ _ String.eqb_spec).
  unfold App.top10_cities_main, Pandas.nlargest.
  rewrite sort_by_sorted_id
    by (unfold Pandas.value_counts; apply sort_by_sorted, count_geb_total).
  rewrite firstn_all2 by exact Hlen.
  apply value_counts_row. now exists r.
Qed.

(** X10 on the sample frame, which has two cities. *)
Lemma df_top10_all_cities_sample :
  List.length (Pandas.value_counts (map App.city Sample.view)) <= 10
  /\ App.df_top10 Sample.view
     = filter (fun r => Pandas.notna (App.city r)) Sample.view.
Proof.
  assert (H : List.length (Pandas.value_counts (map App.city Sample.view))
              <= 10) by (vm_compute; lia).
  split; [exact H | exact (@df_top10_all_cities Sample.view H)].
Defined.

Lemma key_leb_total (a b : Pandas.GroupKey) :
  Pandas.key_leb a b = true \/ Pandas.key_leb b a = true.
Proof.
  destruct a as [ya ca], b as [yb cb]. unfold Pandas.key_leb; simpl.
  destruct (Z.lt_trichotomy ya yb) as [H|[->|H]].
  - left. apply orb_true_iff. left. now apply Z.ltb_lt.
  - rewrite Z.eqb_refl, Z.ltb_irrefl. simpl. apply String.leb_total.
  - right. apply orb_true_iff. left. now apply Z.ltb_lt.
Qed.

Lemma key_leb_neq_lt (a b : Pandas.GroupKey) :
  Pandas.key_leb a b = true -> a <> b -> key_lt a b.
Proof.
  destruct a as [ya ca], b as [yb cb]. unfold Pandas.key_leb, key_lt; simpl.
  intros Hle Hne. apply orb_true_iff in Hle. destruct Hle as [Hlt|Heq].
  - left. now apply Z.ltb_lt.
  - apply andb_true_iff in Heq. destruct Heq as [Hy Hc].
    apply Z.eqb_eq in Hy. subst yb. right. split; [reflexivity|].
    apply leb_neq_ltb; [exact Hc | congruence].
Qed.

Lemma key_lt_trans (a b c : Pandas.GroupKey) :
  key_lt a b -> key_lt b c -> key_lt a c.
Proof.
  unfold key_lt. intros [Hab|[Hab Sab]] [Hbc|[Hbc Sbc]].
  - left. lia.
  - left. lia.
  - left. lia.
  - right. split; [congruence|].
    unfold String.ltb in *.
    destruct (String.compare (snd a) (snd b)) eqn:E1; try discriminate.
    destruct (String.compare (snd b) (snd c)) eqn:E2; try discriminate.
    now rewrite (string_lt_trans _ _ _ E1 E2).
Qed.

(** X11. The rows of the growth table come in strictly ascending order of
    their key: by year, and within a year by city. *)
Theorem growth_sorted_by_year_city (view : App.DataFrame) :
  StronglySorted (fun a b => key_lt (fst a) (fst b)) (App.growth view).
Proof.
  apply Sorted_StronglySorted.
  { intros a b c. apply key_lt_trans. }
  assert (Hnd := groupby_size_NoDup
                   (map (fun r => (App.model_year r, App.city r))
                        (App.df_top10 view))).
  fold (App.growth view) in Hnd.
  assert (Hs : Sorted (fun a b : Pandas.GroupKey * nat =>
                         Pandas.key_leb (fst a) (fst b) = true)
                      (App.growth view)).
  { unfold App.growth, Pandas.groupby_size.
    apply (sort_by_sorted
             (fun a b : Pandas.GroupKey * nat =>
                Pandas.key_leb (fst a) (fst b))).
    intros a b. apply key_leb_total. }
  induction Hs as [|x t Hs IH Hhd]; constructor.
  - apply IH. now inversion Hnd.
  - destruct Hhd as [|y t' Hxy]; constructor.
    apply key_leb_neq_lt; [exact Hxy|].
    simpl in Hnd. inversion Hnd as [|? ? Hnotin _]; subst.
    intros Heq. apply Hnotin. left. now symmetry.
Qed.

(** X12. On a filtered frame every box of the box plot belongs to a slice
    of the pie chart, and the box has no more values than the slice has
    rows. *)
Theorem box_groups_within_pie (df : App.DataFrame) (fs : App.FilterState) :
  let view := App.df_filtered df fs in
  exists traces,
    App.fig_box_type view = Ok traces
    /\ Forall (fun tr =>
                 exists t c, App.name tr = Some t
                             /\ In (t, c) (App.type_counts view)
                             /\ List.length (App.y tr) <= c)
              traces.
Proof.
  intros view. eexists.
  split; [apply fig_box_type_typed; intros r; apply view_typed|].
  apply Forall_forall. intros tr Htr. apply in_map_iff in Htr.
  destruct Htr as (t & <- & Hin).
  apply (proj2 (proj2 (categories_spec view))) in Hin.
  destruct Hin as (r & Hr & Ht & _).
  exists t, (count (fun r => holds t (App.vehicle_type r)) view).
  split; [reflexivity|]. split.
  - unfold App.type_counts. apply value_counts_In. rewrite count_map.
    split; [reflexivity|]. apply count_pos. exists r. split; [exact Hr|].
    unfold holds. rewrite Ht. simpl. apply String.eqb_refl.
  - simpl. rewrite length_map, prices_of_length.
    unfold count. rewrite <- filter_twice. apply filter_length_le.
Qed.

Lemma px_bar_ok (figure : Pandas.CountSeries string -> App.Element)
    (counts : Pandas.CountSeries string) (fig : App.Element) :
  App.px_bar figure counts = Ok fig -> counts <> [] /\ fig = figure counts.
Proof.
  destruct counts as [|e counts]; simpl; [discriminate|].
  intros H. injection H as <-. split; [discriminate | reflexivity].
Qed.

(** What a run of the charts appends to the page, and where it stops. *)
Lemma charts_run (view : App.DataFrame) (page : list App.Element) :
  App.charts view page
  = match App.px_bar App.BarCities (App.city_counts view) with
    | Raise e => (page ++ [App.Subheader], Raise e)
    | Ok bar_cities =>
        match App.fig_box_type view with
        | Raise e =>
            (page ++ [App.Subheader; bar_cities;
                      App.Subheader; App.LineGrowth (App.growth view);
                      App.Subheader; App.PieTypes (App.type_counts view);
                      App.Subheader],
             Raise e)
        | Ok traces =>
            match App.px_bar App.BarMakes (App.makes_counts view) with
            | Raise e =>
                (page ++ [App.Subheader; bar_cities;
                          App.Subheader; App.LineGrowth (App.growth view);
                          App.Subheader; App.PieTypes (App.type_counts view);
                          App.Subheader; App.BoxTypes traces;
                          App.Subheader],
                 Raise e)
            | Ok bar_makes =>
                (page ++ [App.Subheader; bar_cities;
                          App.Subheader; App.LineGrowth (App.growth view);
                          App.Subheader; App.PieTypes (App.type_counts view);
                          App.Subheader; App.BoxTypes traces;
                          App.Subheader; bar_makes;
                          App.Markdown; App.Markdown],
                 Ok tt)
            end
        end
    end.
Proof.
  unfold App.charts, App.bind, App.emit, App.lift, App.ret.
  destruct (App.px_bar App.BarCities _); [|reflexivity].
  destruct (App.fig_box_type view); [|now rewrite <- ?app_assoc].
  destruct (App.px_bar App.BarMakes _); now rewrite <- ?app_assoc.
Qed.

Lemma main_after_startup (parse_number : string -> option Z)
    (src : App.Source) (fs : App.FilterState)
    (page0 : list App.Element) (df : App.DataFrame) :
  App.startup parse_number src [] = (page0, Ok df) ->
  App.main parse_number src fs []
  = App.charts (App.df_filtered df fs)
      (page0 ++ [App.TypeSelect (App.options_of (map App.vehicle_type df));
                 App.CitySelect (App.options_of (map App.city df));
                 App.MakeSelect (App.options_of (map App.make df))]).
Proof.
  intros H. unfold App.main, App.bind at 1. rewrite H.
  unfold App.bind, App.emit. now rewrite <- !app_assoc.
Qed.

(** X13. A run that ends normally has put on the page, in this order:
    the title, the side-bar header, the year slider, the three
    multiselects with the options of the whole loaded frame, the five
    charts, all five computed from the same filtered frame, and the two
    closing markdown blocks; the city ranking and the make ranking of the
    filtered frame are not empty then. *)
Theorem main_page_of_successful_run (parse_number : string -> option Z)
    (src : App.Source) (fs : App.FilterState) (page : list App.Element) :
  App.main parse_number src fs [] = (page, Ok tt) ->
  exists df lo hi traces,
    App.load_data parse_number src = Ok df
    /\ App.fig_box_type (App.df_filtered df fs) = Ok traces
    /\ App.city_counts (App.df_filtered df fs) <> []
    /\ App.makes_counts (App.df_filtered df fs) <> []
    /\ page
       = [App.Title; App.SidebarHeader; App.YearSlider lo hi;
          App.TypeSelect (App.options_of (map App.vehicle_type df));
          App.CitySelect (App.options_of (map App.city df));
          App.MakeSelect (App.options_of (map App.make df));
          App.Subheader; App.BarCities (App.city_counts (App.df_filtered df fs));
          App.Subheader; App.LineGrowth (App.growth (App.df_filtered df fs));
          App.Subheader; App.PieTypes (App.type_counts (App.df_filtered df fs));
          App.Subheader; App.BoxTypes traces;
          App.Subheader; App.BarMakes (App.makes_counts (App.df_filtered df fs));
          App.Markdown; App.Markdown].
Proof.
  destruct src as [|rows]; [discriminate|].
  destruct (App.startup parse_number (App.Table rows) [])
    as [page0 [df|e]] eqn:Estart.
  2:{ unfold App.main, App.bind at 1. rewrite Estart. discriminate. }
  rewrite (main_after_startup _ _ fs Estart), charts_run.
  rewrite startup_table in Estart. cbv zeta in Estart.
  destruct (Pandas.series_min _) as [lo|]; [|discriminate].
  destruct (Pandas.series_max _) as [hi|]; [|discriminate].
  injection Estart as <- <-.
  destruct (App.px_bar App.BarCities _) as [bar_cities|e] eqn:Ecities;
    [|discriminate].
  destruct (App.fig_box_type _) as [traces|e] eqn:Ebox; [|discriminate].
  destruct (App.px_bar App.BarMakes _) as [bar_makes|e] eqn:Emakes;
    [|discriminate].
  apply px_bar_ok in Ecities, Emakes.
  destruct Ecities as [Hcities ->], Emakes as [Hmakes ->].
  intros H. injection H as <-.
  eexists. exists lo, hi, traces.
  split; [apply load_data_table|]. split; [exact Ebox|].
  split; [exact Hcities|]. split; [exact Hmakes|]. reflexivity.
Qed.

(** X13 on the sample file with everything selected. *)
Lemma main_page_sample :
  App.main Sample.parse_decimal Sample.file Sample.all_selected []
  = (fst (App.main Sample.parse_decimal Sample.file Sample.all_selected []),
     Ok tt)
  /\ exists df, App.load_data Sample.parse_decimal Sample.file = Ok df.
Proof.
  assert (H : App.main Sample.parse_decimal Sample.file Sample.all_selected []
              = (fst (App.main Sample.parse_decimal Sample.file
                        Sample.all_selected []), Ok tt)) by reflexivity.
  split; [exact H|].
  destruct (@main_page_of_successful_run _ _ _ _ H)
    as (df & _ & _ & _ & Hload & _).
  now exists df.
Defined.

Lemma no_type_no_rows (df : App.DataFrame) (fs : App.FilterState) :
  App.selected_types fs = [] -> App.df_filtered df fs = [].
Proof.
  intros Hnone. rewrite df_filtered_filter.
  induction df as [|r df IH]; simpl; [reflexivity|].
  unfold passes at 1. rewrite Hnone, isin_nil, andb_false_r. exact IH.
Qed.

(** X18. When the filtered frame has no city to rank, the run stops at
    the first bar chart with the ValueError of px.bar: the widgets and
    the first subheader are on the page, and no chart.  Selecting no
    vehicle type is one way to get there. *)
Theorem empty_ranking_stops_the_run (parse_number : string -> option Z)
    (src : App.Source) (fs : App.FilterState)
    (page0 : list App.Element) (df : App.DataFrame) :
  App.startup parse_number src [] = (page0, Ok df) ->
  (App.city_counts (App.df_filtered df fs) = [] ->
   App.main parse_number src fs []
   = (page0 ++ [App.TypeSelect (App.options_of (map App.vehicle_type df));
                App.CitySelect (App.options_of (map App.city df));
                App.MakeSelect (App.options_of (map App.make df));
                App.Subheader],
      Raise ValueError))
  /\ (App.selected_types fs = [] ->
      App.city_counts (App.df_filtered df fs) = []).
Proof.
  intros Hstart. split.
  - intros Hempty.
    rewrite (main_after_startup _ _ fs Hstart), charts_run, Hempty. simpl.
    now rewrite <- app_assoc.
  - intros Hnone. now rewrite no_type_no_rows.
Qed.

(** X18 on the sample file with no type selected. *)
Lemma empty_ranking_sample :
  let none := App.mkFilterState (2020%Z, 2021%Z) [] [] [] in
  App.startup Sample.parse_decimal Sample.file []
  = ([App.Title; App.SidebarHeader; App.YearSlider 2020 2021],
     Ok Sample.dataset)
  /\ App.city_counts (App.df_filtered Sample.dataset none) = []
  /\ App.main Sample.parse_decimal Sample.file none []
     = ([App.Title; App.SidebarHeader; App.YearSlider 2020 2021;
         App.TypeSelect ["BEV"%string; "PHEV"%string];
         App.CitySelect ["Bellevue"%string; "Seattle"%string];
         App.MakeSelect ["Tesla"%string; "Toyota"%string];
         App.Subheader],
        Raise ValueError).
Proof.
  cbv zeta.
  assert (Hstart : App.startup Sample.parse_decimal Sample.file []
                   = ([App.Title; App.SidebarHeader; App.YearSlider 2020 2021],
                      Ok Sample.dataset)) by reflexivity.
  assert (Hempty : App.city_counts
                     (App.df_filtered Sample.dataset
                        (App.mkFilterState (2020%Z, 2021%Z) [] [] [])) = [])
    by reflexivity.
  split; [exact Hstart|]. split; [exact Hempty|].
  exact (proj1 (@empty_ranking_stops_the_run _ _
                  (App.mkFilterState (2020%Z, 2021%Z) [] [] []) _ _ Hstart)
               Hempty).
Defined.

Section TallyFilter.
Variable K : Type.
Variable eqb : K -> K -> bool.
Hypothesis eqb_spec : forall a b, reflect (a = b) (eqb a b).
Variable p : K -> bool.

Lemma filter_bump (k : K) (acc : list (K * nat)) :
  filter (fun e => p (fst e)) (Pandas.bump eqb k acc)
  = if p k then Pandas.bump eqb k (filter (fun e => p (fst e)) acc)
    else filter (fun e => p (fst e)) acc.
Proof.
  induction acc as [|[k' c] acc IH]; simpl.
  - now destruct (p k).
  - destruct (eqb_spec k k') as [<-|Hne]; simpl.
    + destruct (p k); simpl; [|reflexivity].
      now destruct (eqb_spec k k).
    + rewrite IH. destruct (p k'), (p k); simpl; trivial.
      now destruct (eqb_spec k k').
Qed.

Lemma filter_fold_bump (ks : list K) (acc : list (K * nat)) :
  filter (fun e => p (fst e)) (fold_left (fun a k => Pandas.bump eqb k a) ks acc)
  = fold_left (fun a k => Pandas.bump eqb k a) (filter p ks)
              (filter (fun e => p (fst e)) acc).
Proof.
  revert acc. induction ks as [|k ks IH]; intros acc; simpl; [reflexivity|].
  rewrite IH, filter_bump. now destruct (p k).
Qed.

(** Selecting entries of a count table by their key is counting the
    selected keys only. *)
Lemma filter_tally (ks : list K) :
  filter (fun e => p (fst e)) (Pandas.tally eqb ks)
  = Pandas.tally eqb (filter p ks).
Proof. unfold Pandas.tally. now rewrite filter_fold_bump. Qed.
End TallyFilter.

Lemma filter_perm (A : Type) (f : A -> bool) (l l' : list A) :
  Permutation l l' -> Permutation (filter f l) (filter f l').
Proof.
  induction 1 as [|x l l' Hp IH|x y l|l l' l'' H1 IH1 H2 IH2]; simpl.
  - constructor.
  - destruct (f x); [now constructor | exact IH].
  - destruct (f x), (f y); try reflexivity. apply perm_swap.
  - now transitivity (filter f l').
Qed.

Lemma complete_keys_select (q : Pandas.GroupKey -> bool)
    (ks : list (option Z * option string)) :
  count q (Pandas.complete_keys ks)
  = count (fun p => match p with
                    | (Some yr, Some c) => q (yr, c)
                    | _ => false
                    end) ks.
Proof.
  unfold count. induction ks as [|[[yr|] [c|]] ks IH]; simpl; trivial.
  destruct (q (yr, c)); simpl; congruence.
Qed.

(** The growth counts of one city, added over the years. *)
Lemma growth_city_total (view : App.DataFrame) (c : string) :
  total (map snd (filter (fun e => String.eqb (snd (fst e)) c)
                         (App.growth view)))
  = count (fun r => Pandas.isin (App.city r) (App.top10_cities_main view)
                    && (Pandas.notna (App.model_year r)
                        && holds c (App.city r)))
          view.
Proof.
  unfold App.growth, Pandas.groupby_size.
  rewrite (total_perm (Permutation_map snd
             (filter_perm _ (sort_by_perm _ _)))).
  rewrite (@filter_tally _ _ key_eqb_spec
             (fun k : Pandas.GroupKey => String.eqb (snd k) c)).
  rewrite (@tally_total _ _ key_eqb_spec).
  fold (count (fun k : Pandas.GroupKey => String.eqb (snd k) c)
              (Pandas.complete_keys
                 (map (fun r => (App.model_year r, App.city r))
                      (App.df_top10 view)))).
  rewrite complete_keys_select, count_map. unfold App.df_top10.
  rewrite count_filter. apply count_ext. intros r _. f_equal.
  destruct (App.model_year r), (App.city r); reflexivity.
Qed.

(** X14. On a filtered frame each city of the bar chart has, in the
    growth table, counts that add up over the years to its bar. *)
Theorem growth_lines_sum_to_bars (df : App.DataFrame) (fs : App.FilterState) :
  let view := App.df_filtered df fs in
  Forall (fun bar =>
            total (map snd (filter (fun e => String.eqb (snd (fst e)) (fst bar))
                                   (App.growth view)))
            = snd bar)
         (App.city_counts view).
Proof.
  intros view. apply Forall_forall. intros [c n] Hbar. simpl.
  rewrite growth_city_total.
  assert (Htop : In c (App.top10_cities_main view)).
  { unfold App.top10_cities_main, Pandas.index.
    apply (in_map fst) in Hbar. exact Hbar. }
  apply nlargest_In, value_counts_In in Hbar. destruct Hbar as [-> _].
  rewrite count_map. apply count_ext. intros r Hin.
  unfold view in Hin.
  rewrite df_filtered_filter, filter_In, passes_Satisfies in Hin.
  destruct Hin as (_ & (yr & -> & _) & _). simpl.
  destruct (App.city r) as [c'|] eqn:Hc; [|reflexivity].
  unfold holds; simpl.
  destruct (String.eqb_spec c' c) as [->|Hne]; [|apply andb_false_r].
  rewrite andb_true_r. apply (@existsb_eqb _ _ String.eqb_spec). exact Htop.
Qed.

Lemma growth_In (view : App.DataFrame) (yr : Z) (c : string) (n : nat) :
  In ((yr, c), n) (App.growth view)
  <-> In c (App.top10_cities_main view)
      /\ n = count (at_key yr c) view /\ 0 < n.
Proof.
  unfold App.growth. rewrite groupby_size_In, growth_count.
  destruct (Pandas.isin (Some c) (App.top10_cities_main view)) eqn:E.
  - apply isin_In in E. destruct E as (c' & Hc' & Hin).
    inversion Hc'; subst. tauto.
  - split; [lia|]. intros (Hin & _). exfalso.
    assert (Pandas.isin (Some c) (App.top10_cities_main view) = true)
      by (apply isin_In; eauto).
    congruence.
Qed.

(** X15. On a filtered frame the growth table has rows for exactly the
    cities of the bar chart: each city of the ranking occurs under at
    least one year, and no other city occurs. *)
Theorem growth_cities_are_bar_cities (df : App.DataFrame)
    (fs : App.FilterState) :
  let view := App.df_filtered df fs in
  forall c, In c (Pandas.index (App.city_counts view))
            <-> exists yr n, In ((yr, c), n) (App.growth view).
Proof.
  intros view c. split.
  - intros Htop.
    assert (Hrow := Htop). apply nlargest_index_In, value_counts_row in Hrow.
    destruct Hrow as (r & Hr & Hc).
    assert (Hyr : exists yr, App.model_year r = Some yr).
    { unfold view in Hr.
      rewrite df_filtered_filter, filter_In, passes_Satisfies in Hr.
      destruct Hr as (_ & (yr & Hyr & _) & _). eauto. }
    destruct Hyr as (yr & Hyr).
    exists yr, (count (at_key yr c) view). apply growth_In.
    split; [exact Htop|]. split; [reflexivity|].
    apply count_pos. exists r. split; [exact Hr|].
    unfold at_key. rewrite Hyr, Hc, Z.eqb_refl, String.eqb_refl. reflexivity.
  - intros (yr & n & Hin). apply growth_In in Hin. tauto.
Qed.

(** * Edge behaviour *)

Lemma forallb_notna_false (A : Type) (l : list (option A)) :
  forallb Pandas.notna l = false -> In None l.
Proof.
  induction l as [|[a|] l IH]; simpl; [discriminate | auto | auto].
Qed.

Lemma sorted_raises (l : list (option string)) (e : Exception) :
  Pandas.sorted l = Raise e -> e = TypeError /\ In None l.
Proof.
  unfold Pandas.sorted. destruct l as [|x [|x' l]]; try discriminate.
  destruct (forallb Pandas.notna (x :: x' :: l)) eqn:E; [discriminate|].
  intros H. injection H as <-. split; [reflexivity|].
  now apply forallb_notna_false.
Qed.

(** X16. On an arbitrary frame the box plot can fail in one way only: a
    TypeError from sorting the categories, and then some row with a price
    has no vehicle type.  The type filter is what keeps such rows away
    from it. *)
Theorem fig_box_type_failure (view : App.DataFrame) (e : Exception) :
  App.fig_box_type view = Raise e ->
  e = TypeError
  /\ exists r, In r view /\ App.base_msrp r <> None
               /\ App.vehicle_type r = None.
Proof.
  unfold App.fig_box_type.
  destruct (Pandas.sorted _) as [tipes|e'] eqn:E; [discriminate|].
  intros H. injection H as <-.
  apply sorted_raises in E. destruct E as [-> Hnone].
  split; [reflexivity|].
  apply unique_In, in_map_iff in Hnone. destruct Hnone as (r & Ht & Hin).
  unfold App.df_type_price in Hin. apply filter_In in Hin.
  destruct Hin as [Hin Hp]. exists r. repeat split; trivial.
  now apply notna_present.
Qed.

(** X16 on a frame of two priced rows, one of them without a type. *)
Lemma fig_box_type_failure_sample :
  let frame := [App.mkRow (Some 2020%Z) None None None (Some 1%Z) None;
                App.mkRow (Some 2020%Z) (Some "BEV"%string) None None
                          (Some 2%Z) None] in
  App.fig_box_type frame = Raise TypeError
  /\ exists r, In r frame /\ App.base_msrp r <> None
               /\ App.vehicle_type r = None.
Proof.
  cbv zeta.
  assert (H : App.fig_box_type
                [App.mkRow (Some 2020%Z) None None None (Some 1%Z) None;
                 App.mkRow (Some 2020%Z) (Some "BEV"%string) None None
                           (Some 2%Z) None] = Raise TypeError)
    by reflexivity.
  split; [exact H|].
  exact (proj2 (@fig_box_type_failure _ _ H)).
Defined.

Lemma isin_options (df : App.DataFrame) (field : App.Row -> option string)
    (r : App.Row) :
  In r df ->
  Pandas.isin (field r) (App.options_of (map field df))
  = Pandas.notna (field r).
Proof.
  intros Hin. destruct (field r) as [s|] eqn:E; [|reflexivity].
  apply isin_In. exists s. split; [reflexivity|].
  apply options_of_In. rewrite <- E. now apply in_map.
Qed.

(** X17. Selecting every city on offer is not the same as selecting none:
    with no city selected the rows without a city stay, with all cities
    selected they are dropped, and nothing else changes; this needs only
    that some city is on offer.  The same holds for the makes, given that
    some make is on offer. *)
Theorem select_all_drops_missing (df : App.DataFrame) (fs : App.FilterState) :
  (App.options_of (map App.city df) <> [] ->
   App.df_filtered df
     (App.mkFilterState (App.tahun_range fs) (App.selected_types fs)
                        (App.options_of (map App.city df))
                        (App.selected_makes fs))
   = filter (fun r => Pandas.notna (App.city r))
       (App.df_filtered df
          (App.mkFilterState (App.tahun_range fs) (App.selected_types fs)
                             [] (App.selected_makes fs))))
  /\ (App.options_of (map App.make df) <> [] ->
      App.df_filtered df
        (App.mkFilterState (App.tahun_range fs) (App.selected_types fs)
                           (App.selected_cities fs)
                           (App.options_of (map App.make df)))
      = filter (fun r => Pandas.notna (App.make r))
          (App.df_filtered df
             (App.mkFilterState (App.tahun_range fs) (App.selected_types fs)
                                (App.selected_cities fs) []))).
Proof.
  split.
  - intros Hcities. rewrite !df_filtered_filter, !filter_twice.
    apply filter_ext_in. intros r Hin. unfold passes; simpl.
    rewrite (isin_options df App.city r Hin).
    destruct (App.options_of (map App.city df)); [congruence|]. simpl.
    rewrite andb_true_r.
    rewrite <- !andb_assoc. f_equal. f_equal. f_equal. apply andb_comm.
  - intros Hmakes. rewrite !df_filtered_filter, !filter_twice.
    apply filter_ext_in. intros r Hin. unfold passes; simpl.
    rewrite (isin_options df App.make r Hin).
    destruct (App.options_of (map App.make df)); [congruence|]. simpl.
    now rewrite andb_true_r.
Qed.

(** X17 on the sample frame, whose rows all have a city and a make. *)
Lemma select_all_sample :
  App.options_of (map App.city Sample.dataset) <> []
  /\ App.options_of (map App.make Sample.dataset) <> []
  /\ App.df_filtered Sample.dataset
       (App.mkFilterState (2020%Z, 2021%Z) ["BEV"%string]
                          (App.options_of (map App.city Sample.dataset)) [])
     = filter (fun r => Pandas.notna (App.city r))
         (App.df_filtered Sample.dataset
            (App.mkFilterState (2020%Z, 2021%Z) ["BEV"%string] [] []))
  /\ App.df_filtered Sample.dataset
       (App.mkFilterState (2020%Z, 2021%Z) ["BEV"%string] []
                          (App.options_of (map App.make Sample.dataset)))
     = filter (fun r => Pandas.notna (App.make r))
         (App.df_filtered Sample.dataset
            (App.mkFilterState (2020%Z, 2021%Z) ["BEV"%string] [] [])).
Proof.
  assert (Hc : App.options_of (map App.city Sample.dataset) <> [])
    by (vm_compute; discriminate).
  assert (Hm : App.options_of (map App.make Sample.dataset) <> [])
    by (vm_compute; discriminate).
  split; [exact Hc|]. split; [exact Hm|].
  destruct (@select_all_drops_missing Sample.dataset
              (App.mkFilterState (2020%Z, 2021%Z) ["BEV"%string] [] []))
    as [Hcity Hmake].
  split; [exact (Hcity Hc) | exact (Hmake Hm)].
Defined.
